(** * app/parse.py: the scraper of the web-scraping test shop

    A shallow embedding of [app/parse.py] and of the parts of its
    collaborators (Python's [str], [int] and [float], BeautifulSoup's
    selection, the Selenium session, the csv writer) that the program's
    behaviour depends on, followed by the properties of the program. *)

From Stdlib Require Import ZArith NArith List Ascii String Lia Bool Decimal DecimalN.
From stdpp Require Import gmap.
Import ListNotations.

Set Warnings "-register-all".
Local Open Scope N_scope.

(** ** Python strings

    A Python [str] is a sequence of Unicode code points; [chr 0xA0] is the
    non-breaking space the description is cleaned of. *)

Abbreviation pystr := (list N) (only parsing).

(** The code points of an ASCII literal of the source. *)
Definition lit (s : string) : pystr :=
  List.map N_of_ascii (list_ascii_of_string s).
Arguments lit s%_string.

(** [Py_UNICODE_ISSPACE]: what [str.strip()] and [str.isspace()] call
    whitespace. *)
Definition isspace (c : N) : bool :=
  ((0x09 <=? c) && (c <=? 0x0D)) || ((0x1C <=? c) && (c <=? 0x20))
  || (c =? 0x85) || (c =? 0xA0) || (c =? 0x1680)
  || ((0x2000 <=? c) && (c <=? 0x200A))
  || (c =? 0x2028) || (c =? 0x2029) || (c =? 0x202F) || (c =? 0x205F)
  || (c =? 0x3000).

(** [Py_ISSPACE]: whitespace of the C locale, used by the number parsers
    after the text has been brought to ASCII. *)
Definition c_isspace (c : N) : bool :=
  ((0x09 <=? c) && (c <=? 0x0D)) || (c =? 0x20).

Fixpoint dropwhile (p : N -> bool) (s : pystr) : pystr :=
  match s with
  | [] => []
  | c :: s' => if p c then dropwhile p s' else s
  end.

Fixpoint span (p : N -> bool) (s : pystr) : pystr * pystr :=
  match s with
  | [] => ([], [])
  | c :: s' =>
      if p c then let (a, b) := span p s' in (c :: a, b) else ([], s)
  end.

Definition lstrip (s : pystr) : pystr := dropwhile isspace s.
Definition rstrip (s : pystr) : pystr := rev (dropwhile isspace (rev s)).

(** [s.strip()] *)
Definition py_strip (s : pystr) : pystr := rstrip (lstrip s).

Fixpoint startswith (p s : pystr) : bool :=
  match p, s with
  | [], _ => true
  | _ :: _, [] => false
  | a :: p', b :: s' => (a =? b) && startswith p' s'
  end.

(** [s.replace(old, new)] for a non-empty [old]: the occurrences of [old]
    are found from left to right and do not overlap.  [skip] is the number
    of characters of a found occurrence still to pass over. *)
Fixpoint replace_from (old new : pystr) (skip : nat) (s : pystr) : pystr :=
  match s with
  | [] => []
  | c :: s' =>
      match skip with
      | S k => replace_from old new k s'
      | O =>
          if startswith old s
          then new ++ replace_from old new (Nat.pred (length old)) s'
          else c :: replace_from old new O s'
      end
  end.

(** [s.replace(old, new)]; an empty [old] matches before every character
    and at the end. *)
Definition py_replace (old new s : pystr) : pystr :=
  match old with
  | [] => new ++ flat_map (fun c => c :: new) s
  | _ :: _ => replace_from old new O s
  end.

(** The pieces of [s.split(sep)] for a non-empty [sep]; [cur] is the piece
    being read, in reverse. *)
Fixpoint split_from (sep : pystr) (skip : nat) (cur : pystr) (s : pystr)
  : list pystr :=
  match s with
  | [] => [rev cur]
  | c :: s' =>
      match skip with
      | S k => split_from sep k cur s'
      | O =>
          if startswith sep s
          then rev cur :: split_from sep (Nat.pred (length sep)) [] s'
          else split_from sep O (c :: cur) s'
      end
  end.

(** [s.split(sep)] with an explicit separator: [None] stands for the
    [ValueError] an empty separator raises. *)
Definition py_split (sep s : pystr) : option (list pystr) :=
  match sep with
  | [] => None
  | _ :: _ => Some (split_from sep O [] s)
  end.

(** *** Decimal digits

    [Py_UNICODE_TODECIMAL]: the code points of general category Nd come in
    runs of ten, 0 to 9; these are the first code points of the runs
    (Unicode 14). *)
Definition decimal_zeros : list N :=
  [ 0x30; 0x660; 0x6F0; 0x7C0; 0x966; 0x9E6; 0xA66; 0xAE6; 0xB66; 0xBE6;
    0xC66; 0xCE6; 0xD66; 0xDE6; 0xE50; 0xED0; 0xF20; 0x1040; 0x1090;
    0x17E0; 0x1810; 0x1946; 0x19D0; 0x1A80; 0x1A90; 0x1B50; 0x1BB0;
    0x1C40; 0x1C50; 0xA620; 0xA8D0; 0xA900; 0xA9D0; 0xA9F0; 0xAA50;
    0xABF0; 0xFF10; 0x104A0; 0x10D30; 0x11066; 0x110F0; 0x11136; 0x111D0;
    0x112F0; 0x11450; 0x114D0; 0x11650; 0x116C0; 0x11730; 0x118E0;
    0x11950; 0x11C50; 0x11D50; 0x11DA0; 0x16A60; 0x16AC0; 0x16B50;
    0x1D7CE; 0x1D7D8; 0x1D7E2; 0x1D7EC; 0x1D7F6; 0x1E140; 0x1E2F0;
    0x1E950; 0x1FBF0 ].

Definition todecimal (c : N) : option N :=
  match find (fun z => (z <=? c) && (c <? z + 10)) decimal_zeros with
  | Some z => Some (c - z)
  | None => None
  end.

(** [_PyUnicode_TransformDecimalAndSpaceToASCII]: before a number is
    parsed, whitespace beyond ASCII becomes a space and decimal digits
    beyond ASCII become ASCII digits; at the first other character beyond
    ASCII the text is cut and closed with a question mark. *)
Fixpoint transform_loop (s : pystr) : pystr :=
  match s with
  | [] => []
  | c :: s' =>
      if c <? 127 then c :: transform_loop s'
      else if isspace c then 0x20 :: transform_loop s'
      else match todecimal c with
           | Some d => (0x30 + d) :: transform_loop s'
           | None => [0x3F]
           end
  end.

Definition transform_decimal_and_space (s : pystr) : pystr :=
  if forallb (fun c => c <? 128) s then s else transform_loop s.

Definition is_digit (c : N) : bool := (0x30 <=? c) && (c <=? 0x39).
Definition digit_val (c : N) : N := c - 0x30.

(** The number a run of ASCII digits denotes. *)
Definition digits_val (ds : pystr) : N :=
  fold_left (fun acc c => 10 * acc + digit_val c) ds 0.

Definition is_underscore (c : N) : bool := c =? 0x5F.

(** A run of digits and underscores is a numeral when it starts and ends
    with a digit and no two underscores are adjacent. *)
Fixpoint grouped (prev_digit : bool) (s : pystr) : bool :=
  match s with
  | [] => prev_digit
  | c :: s' =>
      if is_digit c then grouped true s'
      else if is_underscore c then prev_digit && grouped false s'
      else false
  end.

Definition take_sign (s : pystr) : bool * pystr :=
  match s with
  | c :: s' =>
      if c =? 0x2D then (true, s')
      else if c =? 0x2B then (false, s')
      else (false, s)
  | [] => (false, [])
  end.

(** [sys.get_int_max_str_digits()] as the interpreter starts and the
    program leaves it: the most digits [int] converts. *)
Definition int_max_str_digits : nat := 4300.

(** [int(s)] of a [str], base ten ([PyLong_FromUnicodeObject],
    [PyLong_FromString]): optional whitespace, an optional sign, digits
    that single underscores may group, optional whitespace.  [None] stands
    for the [ValueError], which a numeral of more digits than
    [int_max_str_digits] gets as well (leading zeros count, underscores do
    not). *)
Definition py_int (s : pystr) : option Z :=
  let a := dropwhile c_isspace (transform_decimal_and_space s) in
  let (neg, b) := take_sign a in
  let (run, rest) := span (fun c => is_digit c || is_underscore c) b in
  if grouped false run && forallb c_isspace rest
     && (length (List.filter is_digit run) <=? int_max_str_digits)%nat
  then
    let n := Z.of_N (digits_val (List.filter is_digit run)) in
    Some (if neg then (- n)%Z else n)
  else None.

(** *** Floating-point literals

    A Python [float] is the binary64 number nearest to the decimal number
    its literal denotes.  The model keeps that decimal number, sign,
    digits and power of ten, from which the rounding is a function; equal
    decimals are equal floats. *)
Inductive pyfloat : Type :=
| FDec (neg : bool) (mant : N) (exp10 : Z)
| FInf (neg : bool)
| FNan (neg : bool).

Definition lower (c : N) : N :=
  if (0x41 <=? c) && (c <=? 0x5A) then c + 0x20 else c.

Definition list_eqb (a b : pystr) : bool :=
  (length a =? length b)%nat && startswith a b.

(** [_Py_parse_inf_or_nan]: an optional sign and one of the words inf,
    infinity and nan, in either case. *)
Definition parse_inf_or_nan (s : pystr) : option pyfloat :=
  let (neg, w) := take_sign s in
  let w := List.map lower w in
  if list_eqb w (lit "inf") || list_eqb w (lit "infinity") then Some (FInf neg)
  else if list_eqb w (lit "nan") then Some (FNan neg)
  else None.

Definition is_dot (c : N) : bool := c =? 0x2E.
Definition is_exp (c : N) : bool := (c =? 0x65) || (c =? 0x45).

(** [float_from_string_inner] over [_PyOS_ascii_strtod]: a sign, digits
    with an optional point among them, an optional exponent, and nothing
    after; when no number starts the text it may still name an infinity or
    a NaN. *)
Definition strtod_all (s : pystr) : option pyfloat :=
  let (neg, s1) := take_sign s in
  let (ip, s2) := span is_digit s1 in
  let (fp, s3) :=
    match s2 with
    | c :: t => if is_dot c then span is_digit t else ([], s2)
    | [] => ([], s2)
    end in
  match ip ++ fp with
  | [] => parse_inf_or_nan s
  | _ :: _ =>
      let m := digits_val (ip ++ fp) in
      let scale := Z.of_nat (length fp) in
      match s3 with
      | [] => Some (FDec neg m (- scale))
      | c :: t =>
          if is_exp c then
            let (eneg, t1) := take_sign t in
            let (ed, t2) := span is_digit t1 in
            match ed, t2 with
            | _ :: _, [] =>
                let e := Z.of_N (digits_val ed) in
                Some (FDec neg m ((if eneg then - e else e) - scale))
            | _, _ => None
            end
          else None
      end
  end.

(** [_Py_string_to_number_with_underscores]: an underscore must stand
    between two digits; the underscores are then dropped.  [prev] is the
    character before. *)
Fixpoint underscores_ok (prev : N) (s : pystr) : bool :=
  match s with
  | [] => negb (is_underscore prev)
  | c :: s' =>
      (if is_underscore c then is_digit prev
       else negb (is_underscore prev) || is_digit c)
      && underscores_ok c s'
  end.

Definition without_underscores (s : pystr) : option pystr :=
  if existsb is_underscore s
  then if underscores_ok 0 s
       then Some (List.filter (fun c => negb (is_underscore c)) s)
       else None
  else Some s.

Definition c_strip (s : pystr) : pystr :=
  rev (dropwhile c_isspace (rev (dropwhile c_isspace s))).

(** [float(s)] of a [str] ([PyFloat_FromString]); [None] stands for the
    [ValueError]. *)
Definition py_float (s : pystr) : option pyfloat :=
  match without_underscores (c_strip (transform_decimal_and_space s)) with
  | Some d => strtod_all d
  | None => None
  end.

(** ** Exceptions and results *)

(** The exceptions the program can meet.  [WebDriverException] stands for
    itself and its subclasses other than the three named ones,
    [OSError] for itself and its subclasses ([FileNotFoundError],
    [IsADirectoryError], [PermissionError]), [OtherException] for any
    other subclass of [Exception], and [KeyboardInterrupt] for what is not
    a subclass of [Exception]. *)
Inductive exn : Type :=
| TypeError | AttributeError | KeyError | ValueError | IndexError
| TimeoutException | NoSuchElementException
| ElementNotInteractableException | WebDriverException
| OSError | OtherException | KeyboardInterrupt.

Inductive result (A : Type) : Type :=
| Ok (a : A)
| Raise (e : exn).
Arguments Ok {A} a.
Arguments Raise {A} e.

Definition bind_result {A B} (r : result A) (k : A -> result B) : result B :=
  match r with
  | Ok a => k a
  | Raise e => Raise e
  end.

Declare Scope result_scope.
Delimit Scope result_scope with res.
Notation "x <- m ;; k" := (bind_result m (fun x => k))
  (at level 100, m at next level, right associativity) : result_scope.

(** What the spec calls a ParseError: the markup lacks an expected element
    or attribute, or a text does not convert to its number. *)
Definition is_parse_error (e : exn) : bool :=
  match e with
  | TypeError | AttributeError | KeyError | ValueError | IndexError => true
  | _ => false
  end.

Definition is_raise {A} (r : result A) : bool :=
  match r with
  | Ok _ => false
  | Raise _ => true
  end.

(** ** The parsed markup (BeautifulSoup)

    A node is a string or a tag with its name, the values of its [class]
    attribute, its other attributes and its contents.  The parsed page is a
    tag named [[document]].  A string is a plain [NavigableString] or
    belongs to one of its subclasses, which the parser gives to comments,
    CDATA sections and declarations and to the strings inside [script],
    [style], [template], [rt] and [rp] elements. *)
Inductive string_class : Type :=
| CDataClass | CommentClass | DeclarationClass
| ScriptClass | StylesheetClass | TemplateStringClass
| RubyTextStringClass | RubyParenthesisStringClass.

#[global] Instance string_class_eq_dec : EqDecision string_class.
Proof. solve_decision. Defined.

Inductive node : Type :=
| NavigableString (s : pystr)
| SpecialString (class : string_class) (s : pystr)
| Tag (name : pystr) (classes : list pystr) (attrs : list (pystr * pystr))
      (contents : list node).

(** The selectors of the program: [.cls] and [tag > .cls]. *)
Inductive selector : Type :=
| ClassSel (cls : pystr)
| ChildClassSel (parent : pystr) (cls : pystr).

Definition has_class (cls : pystr) (n : node) : bool :=
  match n with
  | NavigableString _ | SpecialString _ _ => false
  | Tag _ classes _ _ => bool_decide (cls ∈ classes)
  end.

(** Whether tag [n], whose parent is named [parent_name], matches. *)
Definition matches (sel : selector) (parent_name : pystr) (n : node) : bool :=
  match sel with
  | ClassSel cls => has_class cls n
  | ChildClassSel parent cls =>
      bool_decide (parent_name = parent) && has_class cls n
  end.

(** The matching tags among [n] and its descendants, in document order. *)
Fixpoint select_from (sel : selector) (parent_name : pystr) (n : node)
  : list node :=
  match n with
  | NavigableString _ | SpecialString _ _ => []
  | Tag name _ _ contents =>
      (if matches sel parent_name n then [n] else [])
      ++ flat_map (select_from sel name) contents
  end.

(** [soup.select(sel)]: the matching descendants of [soup]. *)
Definition select (sel : selector) (soup : node) : list node :=
  match soup with
  | NavigableString _ | SpecialString _ _ => []
  | Tag name _ _ contents => flat_map (select_from sel name) contents
  end.

(** [soup.select_one(sel)]: the first match, or Python's [None]. *)
Definition select_one (sel : selector) (soup : node) : option node :=
  head (select sel soup).

(** The class of the strings that the parser puts inside a tag of this
    name, where it is not [NavigableString]. *)
Definition string_container (name : pystr) : option string_class :=
  if bool_decide (name = lit "script") then Some ScriptClass
  else if bool_decide (name = lit "style") then Some StylesheetClass
  else if bool_decide (name = lit "template") then Some TemplateStringClass
  else if bool_decide (name = lit "rt") then Some RubyTextStringClass
  else if bool_decide (name = lit "rp") then Some RubyParenthesisStringClass
  else None.

(** The strings taken for text where nothing else is said
    ([DEFAULT_INTERESTING_STRING_TYPES]): the plain ones ([None]) and the
    CDATA sections. *)
Definition default_interesting (class : option string_class) : bool :=
  bool_decide (class = None) || bool_decide (class = Some CDataClass).

(** The strings a tag of this name takes for its text
    ([interesting_string_types]): those of its own container class, or
    else the default ones. *)
Definition interesting (name : pystr) (class : option string_class) : bool :=
  match string_container name with
  | Some c => bool_decide (class = Some c)
  | None => default_interesting class
  end.

(** The wanted strings among [n] and below it, joined. *)
Fixpoint all_strings (wanted : option string_class -> bool) (n : node)
  : pystr :=
  match n with
  | NavigableString s => if wanted None then s else []
  | SpecialString c s => if wanted (Some c) then s else []
  | Tag _ _ _ contents => flat_map (all_strings wanted) contents
  end.

(** [tag.text]: the strings below the tag that are of a class the tag
    takes for text, joined (Beautiful Soup 4.11 and later); comments and,
    outside their own element, scripts and styles are not among them.
    The text of a string is the string if it is of a default class, and
    empty otherwise. *)
Definition text (n : node) : pystr :=
  match n with
  | Tag name _ _ contents => flat_map (all_strings (interesting name)) contents
  | _ => all_strings default_interesting n
  end.

Fixpoint assoc (k : pystr) (l : list (pystr * pystr)) : option pystr :=
  match l with
  | [] => None
  | (k', v) :: l' => if bool_decide (k = k') then Some v else assoc k l'
  end.

(** [x[key]] where [x] is the outcome of [select_one]: subscripting [None]
    is a [TypeError], a missing attribute a [KeyError]. *)
Definition subscript (x : option node) (key : pystr) : result pystr :=
  match x with
  | None => Raise TypeError
  | Some (NavigableString _) | Some (SpecialString _ _) => Raise TypeError
  | Some (Tag _ _ attrs _) =>
      match assoc key attrs with
      | Some v => Ok v
      | None => Raise KeyError
      end
  end.

(** [x.text] where [x] is the outcome of [select_one]: [None] has no
    attribute [text]. *)
Definition dot_text (x : option node) : result pystr :=
  match x with
  | None => Raise AttributeError
  | Some n => Ok (text n)
  end.

Definition sel_title : selector := ClassSel (lit "title").
Definition sel_description : selector := ClassSel (lit "description").
Definition sel_price : selector := ClassSel (lit "price").
Definition sel_star : selector := ChildClassSel (lit "p") (lit "ws-icon-star").
Definition sel_review_count : selector := ClassSel (lit "review-count").
Definition sel_thumbnail : selector := ClassSel (lit "thumbnail").

(** ** The record *)

Record Product : Type := {
  title : pystr;
  description : pystr;
  price : pyfloat;
  rating : Z;
  num_of_reviews : Z
}.

(** ** Extraction *)

Definition nbsp : pystr := [0xA0].

Definition float_ (s : pystr) : result pyfloat :=
  match py_float s with
  | Some f => Ok f
  | None => Raise ValueError
  end.

Definition int_ (s : pystr) : result Z :=
  match py_int s with
  | Some z => Ok z
  | None => Raise ValueError
  end.

Definition split_ (sep s : pystr) : result (list pystr) :=
  match py_split sep s with
  | Some l => Ok l
  | None => Raise ValueError
  end.

(** [l[0]] *)
Definition first_item (l : list pystr) : result pystr :=
  match l with
  | x :: _ => Ok x
  | [] => Raise IndexError
  end.

Local Open Scope result_scope.

(** [description.replace("\xa0", " ").strip()] *)
Definition clean_description (description : pystr) : pystr :=
  py_strip (py_replace nbsp (lit " ") description).

(** [float(price.replace("$", "").strip())] *)
Definition price_of_text (price : pystr) : result pyfloat :=
  float_ (py_strip (py_replace (lit "$") (lit "") price)).

(** [int(num_of_reviews.split(" ")[0].strip())] *)
Definition reviews_of_text (num_of_reviews : pystr) : result Z :=
  pieces <- split_ (lit " ") num_of_reviews ;;
  piece <- first_item pieces ;;
  int_ (py_strip piece).

Definition parse_single_product (product_soup : node) : result Product :=
  title <- subscript (select_one sel_title product_soup) (lit "title") ;;
  description <- dot_text (select_one sel_description product_soup) ;;
  let description := clean_description description in
  price <- dot_text (select_one sel_price product_soup) ;;
  price <- price_of_text price ;;
  let rating := Z.of_nat (length (select sel_star product_soup)) in
  num_of_reviews <- dot_text (select_one sel_review_count product_soup) ;;
  num_of_reviews <- reviews_of_text num_of_reviews ;;
  Ok {| title := title;
        description := description;
        price := price;
        rating := rating;
        num_of_reviews := num_of_reviews |}.

(** The list comprehension: the products in the order of the tags, or the
    exception of the first tag that raises. *)
Fixpoint comprehension {A B} (f : A -> result B) (l : list A)
  : result (list B) :=
  match l with
  | [] => Ok []
  | x :: l' =>
      y <- f x ;;
      ys <- comprehension f l' ;;
      Ok (y :: ys)
  end.

Definition parse_product_page (page_soup : node) : result (list Product) :=
  let products_soup := select sel_thumbnail page_soup in
  comprehension parse_single_product products_soup.

(** *** A listing card, as the shop renders it *)

Definition string_tag (name : pystr) (classes : list pystr)
    (attrs : list (pystr * pystr)) (s : pystr) : node :=
  Tag name classes attrs [NavigableString s].

Definition star_icon : node :=
  Tag (lit "span") [lit "ws-icon"; lit "ws-icon-star"] [] [].

Definition card (t d p r : pystr) (k : nat) : node :=
  Tag (lit "div") [lit "card"; lit "thumbnail"] []
    [ Tag (lit "div") [lit "caption"] []
        [ string_tag (lit "h4") [lit "price"; lit "float-end"] [] p;
          Tag (lit "h4") [] []
            [ string_tag (lit "a") [lit "title"]
                [(lit "href", lit "#"); (lit "title", t)] t ];
          string_tag (lit "p") [lit "description"; lit "card-text"] [] d ];
      Tag (lit "div") [lit "ratings"] []
        [ string_tag (lit "p") [lit "review-count"; lit "float-end"] [] r;
          Tag (lit "p") [] [(lit "data-rating", lit "")] (repeat star_icon k) ] ].

(** ** The browser session (Selenium) *)

Inductive locator : Type :=
| ByClassName (s : pystr)
| ByCssSelector (s : pystr).

(** A call on the session and what is written down of it. *)
Inductive call : Type :=
| NewChrome                         (* webdriver.Chrome(service, options) *)
| Get (url : pystr)                 (* driver.get(url) *)
| UntilPresence (loc : locator)     (* WebDriverWait(driver, 10).until(
                                       ec.presence_of_element_located(loc)) *)
| UntilClickable (loc : locator)    (* ... ec.element_to_be_clickable(loc) *)
| Click (loc : locator)             (* click() of the element a wait gave *)
| PageSource                        (* driver.page_source *)
| Quit.                             (* driver.quit() *)

#[global] Instance locator_eq_dec : EqDecision locator.
Proof. solve_decision. Defined.

#[global] Instance call_eq_dec : EqDecision call.
Proof. solve_decision. Defined.

Inductive event : Type :=
| Called (c : call) (raised : option exn)
| Printed (message : pystr) (e : option exn).

(** The browser and the site behind it: any state [D] with an answer to
    each call.  [page] is what the markup of the current page parses to. *)
Class WebDriver (D : Type) : Type := {
  respond : call -> D -> option exn * D;
  page : D -> node
}.

(** ** The files

    A csv file is held as its rows, a row as its cells.  Every row the
    writer emits ends with a line terminator, so a file has size zero
    exactly when it has no row. *)
Inductive cell : Type :=
| CStr (s : pystr)
| CFloat (f : pyfloat)
| CInt (z : Z).

Abbreviation row := (list cell) (only parsing).
Abbreviation file := (list (list cell)) (only parsing).

(** ** The state of a run and its monad

    [files] are the regular files by path.  [refused] are the paths
    [open] does not open for appending: a directory, a path under a
    directory that is missing, a file the user may not write. *)

Record world (D : Type) : Type := {
  session : D;
  files : gmap pystr file;
  refused : gset pystr;
  events : list event
}.
Arguments session {D} w.
Arguments files {D} w.
Arguments refused {D} w.
Arguments events {D} w.

(** A computation ends with a value or an exception and a new world, or
    does not end within the fuel of its loops ([None]). *)
Definition run (D A : Type) : Type := world D -> option (result A * world D).

Section Run.
Context {D : Type} `{WebDriver D}.

Definition ret {A} (a : A) : run D A := fun w => Some (Ok a, w).

Definition raise {A} (e : exn) : run D A := fun w => Some (Raise e, w).

Definition bind {A B} (m : run D A) (k : A -> run D B) : run D B :=
  fun w =>
    match m w with
    | Some (Ok a, w') => k a w'
    | Some (Raise e, w') => Some (Raise e, w')
    | None => None
    end.

Definition lift {A} (r : result A) : run D A := fun w => Some (r, w).

Definition log (ev : event) (w : world D) : world D :=
  {| session := session w; files := files w; refused := refused w;
     events := events w ++ [ev] |}.

(** A call on the session, written down with its outcome. *)
Definition do_call (c : call) : run D unit :=
  fun w =>
    let (r, d) := respond c (session w) in
    let w' := log (Called c r)
                {| session := d; files := files w; refused := refused w;
                   events := events w |} in
    match r with
    | None => Some (Ok tt, w')
    | Some e => Some (Raise e, w')
    end.

Definition page_source : run D node :=
  bind (do_call PageSource) (fun _ w => Some (Ok (page (session w)), w)).

Definition print (message : pystr) (e : option exn) : run D unit :=
  fun w => Some (Ok tt, log (Printed message e) w).

(** [try: body except ...: handler]; [handler e] is [None] when no
    clause catches [e]. *)
Definition try_except {A} (body : run D A)
    (handler : exn -> option (run D A)) : run D A :=
  fun w =>
    match body w with
    | Some (Raise e, w') =>
        match handler e with
        | Some h => h w'
        | None => Some (Raise e, w')
        end
    | other => other
    end.

(** [try: body finally: final]: [final] runs however [body] ends, and an
    exception of [final] replaces the outcome of [body]. *)
Definition try_finally {A} (body : run D A) (final : run D unit)
  : run D A :=
  fun w =>
    match body w with
    | Some (r, w') =>
        match final w' with
        | Some (Ok _, w'') => Some (r, w'')
        | Some (Raise e, w'') => Some (Raise e, w'')
        | None => None
        end
    | None => None
    end.
End Run.

Declare Scope run_scope.
Delimit Scope run_scope with run.
Notation "x <- m ;; k" := (bind m (fun x => k))
  (at level 100, m at next level, right associativity) : run_scope.
Notation "m ;; k" := (bind m (fun _ => k))
  (at level 100, right associativity) : run_scope.

Local Open Scope run_scope.

(** ** The site *)

Definition BASE_URL : pystr := lit "https://webscraper.io/".
Definition HOME_URL : pystr :=
  lit "https://webscraper.io/test-sites/e-commerce/more/".
Definition COMPUTERS_URL : pystr :=
  lit "https://webscraper.io/test-sites/e-commerce/more/computers/".
Definition LAPTOPS_URL : pystr :=
  lit "https://webscraper.io/test-sites/e-commerce/more/computers/laptops".
Definition TABLETS_URL : pystr :=
  lit "https://webscraper.io/test-sites/e-commerce/more/computers/tablets".
Definition PHONES_URL : pystr :=
  lit "https://webscraper.io/test-sites/e-commerce/more/phones/".
Definition TOUCH_URL : pystr :=
  lit "https://webscraper.io/test-sites/e-commerce/more/phones/touch".

Definition accept_cookies_button : locator := ByClassName (lit "acceptCookies").
Definition more_link : locator :=
  ByCssSelector (lit "a.ecomerce-items-scroll-more").
Definition thumbnail_locator : locator := ByCssSelector (lit ".thumbnail").

Section Scraper.
Context {D : Type} `{WebDriver D}.

(** ** Driving the page *)

Definition accept_cookies : run D unit :=
  try_except
    (do_call (UntilPresence accept_cookies_button) ;;
     do_call (Click accept_cookies_button))
    (fun e =>
       match e with
       | TimeoutException | NoSuchElementException
       | ElementNotInteractableException =>
           Some (print (lit "Error interacting with the cookie accept button: ")
                       (Some e))
       | WebDriverException =>
           Some (print (lit "WebDriver exception occurred: ") (Some e))
       | _ => None
       end).

Definition more_button : run D bool :=
  try_except
    (do_call (UntilClickable more_link) ;;
     do_call (Click more_link) ;;
     do_call (UntilPresence thumbnail_locator) ;;
     ret true)
    (fun e =>
       match e with
       | TimeoutException =>
           Some (print (lit "Timeout waiting for more button to be clickable.")
                       None ;;
                 ret false)
       | KeyboardInterrupt => None
       | _ =>
           Some (print (lit "Error clicking more button: ") (Some e) ;;
                 ret false)
       end).

(** [while cond: pass] *)
Fixpoint while_pass (fuel : nat) (cond : run D bool) : run D unit :=
  match fuel with
  | O => fun _ => None
  | S fuel' =>
      b <- cond ;;
      if b then while_pass fuel' cond else ret tt
  end.

Definition scrape_products (fuel : nat) (url : pystr)
  : run D (list Product) :=
  let all_products : list Product := [] in
  do_call (Get url) ;;
  accept_cookies ;;
  while_pass fuel more_button ;;
  page_soup <- page_source ;;
  found <- lift (parse_product_page page_soup) ;;
  let all_products := all_products ++ found in
  ret all_products.

(** ** Writing the rows *)

Definition header : row :=
  [ CStr (lit "title"); CStr (lit "description"); CStr (lit "price");
    CStr (lit "rating"); CStr (lit "num_of_reviews") ].

Definition product_row (product : Product) : row :=
  [ CStr (title product); CStr (description product);
    CFloat (price product); CInt (rating product);
    CInt (num_of_reviews product) ].

(** [os.path.isfile(path)] *)
Definition isfile (path : pystr) : run D bool :=
  fun w => Some (Ok (bool_decide (is_Some (files w !! path))), w).

(** [os.stat(path).st_size == 0] of a file that exists *)
Definition st_size_is_zero (path : pystr) : run D bool :=
  fun w =>
    match files w !! path with
    | Some [] => Some (Ok true, w)
    | Some (_ :: _) => Some (Ok false, w)
    | None => Some (Raise OSError, w)
    end.

Definition set_file (path : pystr) (f : file) (w : world D) : world D :=
  {| session := session w;
     files := <[path := f]> (files w);
     refused := refused w;
     events := events w |}.

Definition can_open (path : pystr) (w : world D) : bool :=
  bool_decide (path ∉ refused w).

(** [open(path, "a", newline="")]: the file comes to be if it was not
    there; a path that is refused raises [OSError] (as
    [IsADirectoryError], [FileNotFoundError] or [PermissionError]) and
    nothing comes to be. *)
Definition open_append (path : pystr) : run D unit :=
  fun w =>
    if can_open path w
    then Some (Ok tt, set_file path (default [] (files w !! path)) w)
    else Some (Raise OSError, w).

(** [writer.writerow(r)] on a file opened for appending; an open file
    takes every row. *)
Definition writerow (path : pystr) (r : row) : run D unit :=
  fun w =>
    Some (Ok tt, set_file path (default [] (files w !! path) ++ [r]) w).

Fixpoint for_each {A} (l : list A) (body : A -> run D unit) : run D unit :=
  match l with
  | [] => ret tt
  | x :: l' => body x ;; for_each l' body
  end.

Definition save_products_to_csv (products : list Product)
    (output_csv_path : pystr) : run D unit :=
  file_exists <- isfile output_csv_path ;;
  is_file_empty <-
    (if file_exists then st_size_is_zero output_csv_path else ret true) ;;
  open_append output_csv_path ;;
  (if negb file_exists || is_file_empty
   then writerow output_csv_path header
   else ret tt) ;;
  for_each products
    (fun product => writerow output_csv_path (product_row product)).

(** ** The whole run *)

Definition get_all_products (fuel : nat) : run D unit :=
  do_call NewChrome ;;
  try_finally
    (products_home <- scrape_products fuel HOME_URL ;;
     products_computers <- scrape_products fuel COMPUTERS_URL ;;
     products_laptops <- scrape_products fuel LAPTOPS_URL ;;
     products_tablets <- scrape_products fuel TABLETS_URL ;;
     products_phones <- scrape_products fuel PHONES_URL ;;
     products_touch <- scrape_products fuel TOUCH_URL ;;
     save_products_to_csv products_home (lit "home.csv") ;;
     save_products_to_csv products_computers (lit "computers.csv") ;;
     save_products_to_csv products_laptops (lit "laptops.csv") ;;
     save_products_to_csv products_tablets (lit "tablets.csv") ;;
     save_products_to_csv products_phones (lit "phones.csv") ;;
     save_products_to_csv products_touch (lit "touch.csv"))
    (do_call Quit).
End Scraper.

(** ** What the claims count *)

Definition is_called (c : call) (ev : event) : bool :=
  match ev with
  | Called c' _ => bool_decide (c' = c)
  | Printed _ _ => false
  end.

Definition is_done (c : call) (ev : event) : bool :=
  match ev with
  | Called c' None => bool_decide (c' = c)
  | _ => false
  end.

(** How often [c] was called, and how often it was called and returned. *)
Definition calls (c : call) (evs : list event) : nat :=
  length (List.filter (is_called c) evs).
Definition returns (c : call) (evs : list event) : nat :=
  length (List.filter (is_done c) evs).

Section Claims.
Context {D : Type} `{WebDriver D}.

(** The more link reports itself absent or unclickable: the wait for it
    or the click on it raises an exception. *)
Definition more_link_gone (d : D) : Prop :=
  exists e d1,
    e <> KeyboardInterrupt /\
    (respond (UntilClickable more_link) d = (Some e, d1) \/
     exists d0,
       respond (UntilClickable more_link) d = (None, d0) /\
       respond (Click more_link) d0 = (Some e, d1)).

(** The more link works [n] times, each click showing more thumbnails,
    and is then gone. *)
Fixpoint more_link_works (n : nat) (d : D) : Prop :=
  match n with
  | O => more_link_gone d
  | S k =>
      exists d1 d2 d3,
        respond (UntilClickable more_link) d = (None, d1) /\
        respond (Click more_link) d1 = (None, d2) /\
        respond (UntilPresence thumbnail_locator) d2 = (None, d3) /\
        more_link_works k d3
  end.

(** Of the addresses [urls] scraped in turn from [w], the one at
    position [i] is the first whose scraping raises, and raises [e]. *)
Fixpoint scraping_raises_at (fuel : nat) (urls : list pystr) (i : nat)
    (e : exn) (w : world D) : Prop :=
  match urls, i with
  | [], _ => False
  | url :: _, O =>
      exists w', scrape_products fuel url w = Some (Raise e, w')
  | url :: urls', S j =>
      exists products w',
        scrape_products fuel url w = Some (Ok products, w') /\
        scraping_raises_at fuel urls' j e w'
  end.
End Claims.

(** The six jobs, in the order of the run. *)
Definition JOBS : list (pystr * pystr) :=
  [ (HOME_URL, lit "home.csv");
    (COMPUTERS_URL, lit "computers.csv");
    (LAPTOPS_URL, lit "laptops.csv");
    (TABLETS_URL, lit "tablets.csv");
    (PHONES_URL, lit "phones.csv");
    (TOUCH_URL, lit "touch.csv") ].

(** ** A simulated shop

    For each address, how often the more link works there and the page
    once it is expanded; the cookie banner shows until it is accepted. *)
Record shop : Type := {
  catalogue : list (pystr * (nat * node));
  banner : bool;
  more_left : nat;
  shown : node
}.

Definition blank : node := Tag (lit "[document]") [] [] [].

Fixpoint lookup_url (url : pystr) (l : list (pystr * (nat * node)))
  : option (nat * node) :=
  match l with
  | [] => None
  | (u, x) :: l' => if bool_decide (u = url) then Some x else lookup_url url l'
  end.

Definition shop_respond (c : call) (d : shop) : option exn * shop :=
  match c with
  | Get url =>
      match lookup_url url (catalogue d) with
      | Some (n, p) =>
          (None, {| catalogue := catalogue d; banner := banner d;
                    more_left := n; shown := p |})
      | None => (Some WebDriverException, d)
      end
  | UntilPresence loc =>
      if bool_decide (loc = accept_cookies_button)
      then (if banner d then None else Some TimeoutException, d)
      else (None, d)
  | UntilClickable _ =>
      (match more_left d with O => Some TimeoutException | S _ => None end, d)
  | Click loc =>
      if bool_decide (loc = accept_cookies_button)
      then (None, {| catalogue := catalogue d; banner := false;
                     more_left := more_left d; shown := shown d |})
      else (None, {| catalogue := catalogue d; banner := banner d;
                     more_left := Nat.pred (more_left d); shown := shown d |})
  | NewChrome | PageSource | Quit => (None, d)
  end.

#[global] Instance shop_driver : WebDriver shop :=
  {| respond := shop_respond; page := shown |}.

Definition document (contents : list node) : node :=
  Tag (lit "[document]") [] [] contents.

Definition acer : node :=
  card (lit "Acer Aspire 3") (lit "A good laptop") (lit "$599.00")
       (lit "12 reviews") 3.

Definition unpriced : node :=
  card (lit "Mystery box") (lit "Nobody knows") (lit "$N/A")
       (lit "0 reviews") 0.

Definition open_shop (cat : list (pystr * (nat * node))) : world shop :=
  {| session := {| catalogue := cat; banner := true; more_left := 0;
                   shown := blank |};
     files := ∅;
     refused := ∅;
     events := [] |}.

(** Every category shows the one laptop, after two expansions. *)
Definition good_catalogue : list (pystr * (nat * node)) :=
  List.map (fun job => (fst job, (2%nat, document [acer]))) JOBS.

(** As [good_catalogue], but the computers page has a card without a
    price. *)
Definition bad_catalogue : list (pystr * (nat * node)) :=
  [ (HOME_URL, (2%nat, document [acer]));
    (COMPUTERS_URL, (1%nat, document [acer; unpriced])) ]
  ++ List.map (fun job => (fst job, (0%nat, document [acer]))) (skipn 2 JOBS).

(** The text before the first occurrence of [sep]. *)
Definition before (sep : N) (s : pystr) : pystr :=
  fst (span (fun c => negb (c =? sep)) s).

(** [str(n)] of a natural number: its decimal digits. *)
Fixpoint uint_chars (u : Decimal.uint) : pystr :=
  match u with
  | Nil => []
  | D0 u' => 0x30 :: uint_chars u'
  | D1 u' => 0x31 :: uint_chars u'
  | D2 u' => 0x32 :: uint_chars u'
  | D3 u' => 0x33 :: uint_chars u'
  | D4 u' => 0x34 :: uint_chars u'
  | D5 u' => 0x35 :: uint_chars u'
  | D6 u' => 0x36 :: uint_chars u'
  | D7 u' => 0x37 :: uint_chars u'
  | D8 u' => 0x38 :: uint_chars u'
  | D9 u' => 0x39 :: uint_chars u'
  end.

Definition py_str (n : N) : pystr := uint_chars (N.to_uint n).



Definition strip_with (p : N -> bool) (s : pystr) : pystr :=
  rev (dropwhile p (rev (dropwhile p s))).

(** A shop showing a page whose more link works [n] more times. *)
Definition browsing (n : nat) : world shop :=
  {| session := {| catalogue := []; banner := false; more_left := n;
                   shown := document [acer] |};
     files := ∅;
     refused := ∅;
     events := [] |}.

(** The same world with a directory in the place of [path]. *)
Definition with_directory {D} (path : pystr) (w : world D) : world D :=
  {| session := session w;
     files := files w;
     refused := {[path]} ∪ refused w;
     events := events w |}.

Definition acer_product : Product :=
  {| title := lit "Acer Aspire 3";
     description := lit "A good laptop";
     price := FDec false 59900 (-2);
     rating := 3;
     num_of_reviews := 12 |}.

(** One step of reading a numeral. *)
Definition digit_step (acc c : N) : N := 10 * acc + digit_val c.

(** Where the run over [bad_catalogue] and the run over [good_catalogue]
    end, with five turns of fuel for each loop. *)
Definition end_of (o : option (result unit * world shop)) : world shop :=
  match o with
  | Some (_, w') => w'
  | None => open_shop []
  end.

Definition bad_run_end : world shop :=
  end_of (get_all_products 5 (open_shop bad_catalogue)).
Definition good_run_end : world shop :=
  end_of (get_all_products 5 (open_shop good_catalogue)).

Definition asus : node :=
  card (lit "Asus VivoBook") (lit "15.6 inch, 4GB") (lit "$295.99")
       (lit "7 reviews") 4.

Definition asus_product : Product :=
  {| title := lit "Asus VivoBook";
     description := lit "15.6 inch, 4GB";
     price := FDec false 29599 (-2);
     rating := 4;
     num_of_reviews := 7 |}.

Definition lenovo : node :=
  card (lit "Lenovo V110") (lit "Celeron N3350") (lit "$321.94")
       (lit "1 reviews") 1.

Definition lenovo_product : Product :=
  {| title := lit "Lenovo V110";
     description := lit "Celeron N3350";
     price := FDec false 32194 (-2);
     rating := 1;
     num_of_reviews := 1 |}.

(** A card whose review count spells a number of 4301 digits. *)
Definition long_count_card : node :=
  card (lit "Acer Aspire 3") (lit "A good laptop") (lit "$599.00")
       (py_str (10 ^ 4300) ++ lit " reviews") 3.

(** *** The spec's readings of the two conversions *)

(** The text with every non-breaking space turned into a space and the
    whitespace around it removed. *)
Definition normalized (d : pystr) : pystr :=
  py_strip (List.map (fun c => if c =? 0xA0 then 0x20 else c) d).

(** The text without any dollar sign. *)
Definition without_dollars (s : pystr) : pystr :=
  List.filter (fun c => negb (c =? 0x24)) s.

(** As the spec words the price: the text less the whitespace around it
    and one leading currency symbol. *)
Definition less_leading_currency (s : pystr) : pystr :=
  py_strip
    (match py_strip s with
     | c :: r => if c =? 0x24 then r else c :: r
     | [] => []
     end).


(** The addresses of the six jobs. *)
Definition URLS : list pystr :=
  [HOME_URL; COMPUTERS_URL; LAPTOPS_URL; TABLETS_URL; PHONES_URL; TOUCH_URL].

Section Observations.
Context {D : Type} `{WebDriver D}.

(** The world once the session has answered call [c] with [r] and has
    become [d]. *)
Definition answered (c : call) (r : option exn) (d : D) (w : world D)
  : world D :=
  {| session := d; files := files w; refused := refused w;
     events := events w ++ [Called c r] |}.

(** The destination [path] is fresh: it does not exist, or exists with
    size zero. *)
Definition fresh (path : pystr) (w : world D) : bool :=
  match files w !! path with
  | None | Some [] => true
  | Some (_ :: _) => false
  end.

(** A computation leaves the observation [g] of the world as it was. *)
Definition steady {X A} (g : world D -> X) (m : run D A) : Prop :=
  forall w r w', m w = Some (r, w') -> g w' = g w.

(** Times the session was asked to quit, and times a session was asked
    for. *)
Definition quits (w : world D) : nat := calls Quit (events w).
Definition sessions (w : world D) : nat := calls NewChrome (events w).

(** Expansions of the page: clicks on the more link after which the
    thumbnails were waited for and found. *)
Definition expansions (w : world D) : nat :=
  returns (UntilPresence thumbnail_locator) (events w).

(** Clicks on the more link that went through. *)
Definition clicks (w : world D) : nat :=
  returns (Click more_link) (events w).

(** Times the more link was waited for. *)
Definition attempts (w : world D) : nat :=
  calls (UntilClickable more_link) (events w).
End Observations.

(** ** What the further properties speak of *)

(** The exceptions of Selenium: [WebDriverException] and its subclasses,
    the ones [accept_cookies] has clauses for. *)
Definition is_selenium (e : exn) : bool :=
  match e with
  | TimeoutException | NoSuchElementException
  | ElementNotInteractableException | WebDriverException => true
  | _ => false
  end.

(** The addresses the session was sent to, in the order of the calls. *)
Definition gets (evs : list event) : list pystr :=
  flat_map (fun ev => match ev with
                      | Called (Get url) _ => [url]
                      | _ => []
                      end) evs.

(** A site whose more link never goes away: every call returns. *)
Inductive endless : Type := Endless.

#[global] Instance endless_driver : WebDriver endless :=
  {| respond := fun _ d => (None, d); page := fun _ => blank |}.

Definition endless_world : world endless :=
  {| session := Endless; files := ∅; refused := ∅; events := [] |}.

Section Chains.
Context {D : Type} `{WebDriver D}.

(** The addresses [urls] are scraped in turn from [w], each scraping
    returning its list of [lists], and the world is then [w']. *)
Fixpoint scraping_returns (fuel : nat) (urls : list pystr) (w : world D)
    (lists : list (list Product)) (w' : world D) : Prop :=
  match urls, lists with
  | [], [] => w' = w
  | url :: urls', products :: lists' =>
      exists w1,
        scrape_products fuel url w = Some (Ok products, w1) /\
        scraping_returns fuel urls' w1 lists' w'
  | _, _ => False
  end.

(** The session answers the three calls of [more_button] by returning. *)
Definition more_link_answers (d : D) : Prop :=
  exists d1 d2 d3,
    respond (UntilClickable more_link) d = (None, d1) /\
    respond (Click more_link) d1 = (None, d2) /\
    respond (UntilPresence thumbnail_locator) d2 = (None, d3).
End Chains.

(** Two broken fragments: a title element without its attribute, and a
    title element with it but nothing else. *)
Definition unnamed_fragment : node :=
  Tag (lit "div") [lit "thumbnail"] []
    [string_tag (lit "a") [lit "title"] [(lit "href", lit "#")] (lit "Acer")].

Definition bare_fragment : node :=
  Tag (lit "div") [lit "thumbnail"] []
    [string_tag (lit "a") [lit "title"] [(lit "title", lit "Acer")]
       (lit "Acer")].

(** Where the scraping of the home page of [good_catalogue] ends. *)
Definition home_scraped : world shop :=
  match scrape_products 5 HOME_URL (open_shop good_catalogue) with
  | Some (_, w') => w'
  | None => open_shop []
  end.

Section Written.
Context {D : Type} `{WebDriver D}.

(** What the destination [path] holds once [products] have been saved to
    it from the world [w]. *)
Definition written (products : list Product) (path : pystr) (w : world D)
  : file :=
  default [] (files w !! path)
  ++ (if fresh path w then [header] else [])
  ++ List.map product_row products.
End Written.

(** A machine on which no browser starts: asking for a session raises. *)
Inductive no_browser : Type := NoBrowser.

#[global] Instance no_browser_driver : WebDriver no_browser :=
  {| respond := fun c d =>
                  match c with
                  | NewChrome => (Some WebDriverException, d)
                  | _ => (None, d)
                  end;
     page := fun _ => blank |}.

Definition no_browser_world : world no_browser :=
  {| session := NoBrowser; files := ∅; refused := ∅; events := [] |}.

(** * Properties *)

(** ** Strings *)

Ltac bools :=
  repeat match goal with
    | H : _ && _ = true |- _ => apply andb_prop in H; destruct H
    | H : negb _ = true |- _ => apply negb_true_iff in H
    | H : negb _ = false |- _ => apply negb_false_iff in H
    | H : (_ =? _) = true |- _ => apply N.eqb_eq in H
    | H : (_ =? _) = false |- _ => apply N.eqb_neq in H
    | H : (_ <=? _) = true |- _ => apply N.leb_le in H
    | H : (_ <=? _) = false |- _ => apply N.leb_gt in H
    | H : (_ <? _) = true |- _ => apply N.ltb_lt in H
    | H : (_ <? _) = false |- _ => apply N.ltb_ge in H
    end.

(** Decides a boolean combination of comparisons of code points. *)
Ltac charcase :=
  repeat (match goal with
          | |- context [?a =? ?b] => destruct (N.eqb_spec a b)
          | |- context [?a <=? ?b] => destruct (N.leb_spec a b)
          | |- context [?a <? ?b] => destruct (N.ltb_spec a b)
          | H : context [?a =? ?b] |- _ => destruct (N.eqb_spec a b)
          | H : context [?a <=? ?b] |- _ => destruct (N.leb_spec a b)
          | H : context [?a <? ?b] |- _ => destruct (N.ltb_spec a b)
          end; try lia);
  simpl in *; try congruence; try lia.

Lemma dropwhile_none (p : N -> bool) (s : pystr) :
  (forall c, head s = Some c -> p c = false) -> dropwhile p s = s.
Proof.
  destruct s as [|c s']; simpl; intros Hc; [reflexivity|].
  now rewrite (Hc c eq_refl).
Qed.



Lemma dropwhile_suffix (p : N -> bool) (s : pystr) :
  exists pre, s = pre ++ dropwhile p s /\ Forall (fun c => p c = true) pre.
Proof.
  induction s as [|c s' (pre & Hs & Hpre)]; simpl.
  - exists []. split; [reflexivity | constructor].
  - destruct (p c) eqn:Hc.
    + exists (c :: pre). split; [simpl; congruence | now constructor].
    + exists []. split; [reflexivity | constructor].
Qed.

Lemma dropwhile_Forall (P : N -> Prop) (p : N -> bool) (s : pystr) :
  Forall P s -> Forall P (dropwhile p s).
Proof.
  induction 1 as [|c s' Hc Hs IH]; simpl; [constructor|].
  destruct (p c); [exact IH | now constructor].
Qed.

Lemma dropwhile_idem (p : N -> bool) (s : pystr) :
  dropwhile p (dropwhile p s) = dropwhile p s.
Proof.
  induction s as [|c s' IH]; simpl; [reflexivity|].
  destruct (p c) eqn:Hc; [exact IH | simpl; now rewrite Hc].
Qed.


Lemma span_all (p : N -> bool) (a b : pystr) :
  Forall (fun c => p c = true) a ->
  (forall c, head b = Some c -> p c = false) ->
  span p (a ++ b) = (a, b).
Proof.
  intros Ha Hb. induction Ha as [|c a' Hc _ IH]; simpl.
  - destruct b as [|c b']; simpl; [reflexivity|].
    now rewrite (Hb c eq_refl).
  - now rewrite Hc, IH.
Qed.

(** Replacing a single character. *)
Lemma replace_from_char (a : N) (new s : pystr) :
  replace_from [a] new O s
  = flat_map (fun c => if a =? c then new else [c]) s.
Proof.
  induction s as [|c s' IH]; simpl; [reflexivity|].
  rewrite andb_true_r. destruct (a =? c); simpl; now rewrite IH.
Qed.

Lemma replace_dollar (s : pystr) :
  py_replace (lit "$") (lit "") s = List.filter (fun c => negb (c =? 0x24)) s.
Proof.
  change (py_replace (lit "$") (lit "") s) with (replace_from [0x24] [] O s).
  rewrite replace_from_char.
  induction s as [|c s' IH]; [reflexivity|].
  cbn [flat_map List.filter]. rewrite IH, (N.eqb_sym c).
  destruct (0x24 =? c); reflexivity.
Qed.

Lemma replace_nbsp (s : pystr) :
  py_replace nbsp (lit " ") s
  = List.map (fun c => if c =? 0xA0 then 0x20 else c) s.
Proof.
  change (py_replace nbsp (lit " ") s) with (replace_from [0xA0] [0x20] O s).
  rewrite replace_from_char.
  induction s as [|c s' IH]; [reflexivity|].
  cbn [flat_map List.map]. rewrite IH, (N.eqb_sym c).
  destruct (0xA0 =? c); reflexivity.
Qed.

Lemma split_from_char (sep : N) (cur s : pystr) :
  exists rest,
    split_from [sep] O cur s = (rev cur ++ before sep s) :: rest.
Proof.
  revert cur. induction s as [|c s' IH]; intros cur; simpl.
  - exists []. unfold before. simpl. now rewrite app_nil_r.
  - rewrite andb_true_r. unfold before. simpl. rewrite (N.eqb_sym c).
    destruct (sep =? c); simpl.
    + eexists. now rewrite app_nil_r.
    + destruct (IH (c :: cur)) as [rest ->]. exists rest.
      simpl. rewrite <- app_assoc. unfold before.
      destruct (span _ s'). reflexivity.
Qed.

Lemma first_of_split (s : pystr) :
  bind_result (split_ (lit " ") s) first_item = Ok (before 0x20 s).
Proof.
  unfold split_. change (py_split (lit " ") s) with (Some (split_from [0x20] O [] s)).
  destruct (split_from_char 0x20 [] s) as [rest ->]. reflexivity.
Qed.

(** *** Numerals *)

Lemma of_uint_acc_fold (u : Decimal.uint) (acc : positive) :
  N.pos (Pos.of_uint_acc u acc)
  = fold_left digit_step (uint_chars u) (N.pos acc).
Proof.
  revert acc. induction u as [|u IH|u IH|u IH|u IH|u IH|u IH|u IH|u IH|u IH|u IH];
    intros acc; cbn [Pos.of_uint_acc uint_chars fold_left];
    [reflexivity | rewrite IH; f_equal; unfold digit_step, digit_val; lia ..].
Qed.

Lemma digits_val_uint (u : Decimal.uint) :
  digits_val (uint_chars u) = N.of_uint u.
Proof.
  unfold digits_val, N.of_uint. fold digit_step.
  induction u as [|u IH|u IH|u IH|u IH|u IH|u IH|u IH|u IH|u IH|u IH];
    cbn [Pos.of_uint uint_chars fold_left];
    [reflexivity | exact IH | rewrite of_uint_acc_fold; reflexivity ..].
Qed.

Lemma uint_chars_digits (u : Decimal.uint) :
  Forall (fun c => is_digit c = true) (uint_chars u).
Proof.
  induction u; simpl; constructor; (reflexivity || assumption).
Qed.

Lemma to_uint_not_nil (n : N) : N.to_uint n <> Nil.
Proof.
  intros Hn. pose proof (DecimalN.Unsigned.to_of (N.to_uint n)) as Hr.
  destruct n as [|p]; [discriminate|].
  pose proof (DecimalN.Unsigned.of_to (N.pos p)) as Ho.
  rewrite Hn in Ho. discriminate.
Qed.

Lemma py_str_digits (n : N) :
  Forall (fun c => is_digit c = true) (py_str n) /\ py_str n <> [].
Proof.
  split; [apply uint_chars_digits|].
  unfold py_str. pose proof (to_uint_not_nil n) as Hn.
  destruct (N.to_uint n); simpl; congruence.
Qed.

Lemma digits_val_py_str (n : N) : digits_val (py_str n) = n.
Proof.
  unfold py_str. rewrite digits_val_uint. apply DecimalN.Unsigned.of_to.
Qed.

Lemma digit_not_space (c : N) : is_digit c = true -> isspace c = false.
Proof. unfold is_digit, isspace. intros Hc. bools. charcase. Qed.

Lemma digit_props (c : N) :
  is_digit c = true ->
  c_isspace c = false /\ (c <? 128) = true /\ (c =? 0x2D) = false /\
  (c =? 0x2B) = false /\ (c =? 0x20) = false /\ is_underscore c = false.
Proof.
  unfold is_digit, c_isspace, is_underscore. intros Hc. bools.
  repeat split; charcase.
Qed.

(** What [strip] leaves of a text without whitespace at either end. *)
Lemma strip_trimmed (s : pystr) :
  (forall c, head s = Some c -> isspace c = false) ->
  (forall c, head (rev s) = Some c -> isspace c = false) ->
  py_strip s = s.
Proof.
  intros Hl Hr. unfold py_strip, rstrip, lstrip.
  rewrite (dropwhile_none _ s Hl), (dropwhile_none _ (rev s) Hr).
  apply rev_involutive.
Qed.

Lemma head_Forall (P : N -> Prop) (s : pystr) (c : N) :
  Forall P s -> head s = Some c -> P c.
Proof. destruct 1; simpl; [discriminate | now intros [= <-]]. Qed.

Lemma strip_digits (ds : pystr) :
  Forall (fun c => is_digit c = true) ds -> py_strip ds = ds.
Proof.
  intros Hd. apply strip_trimmed; intros c Hc; apply digit_not_space.
  - exact (head_Forall _ _ _ Hd Hc).
  - apply List.Forall_rev in Hd. exact (head_Forall _ _ _ Hd Hc).
Qed.

Lemma grouped_digits (ds : pystr) (b : bool) :
  Forall (fun c => is_digit c = true) ds ->
  grouped b ds = match ds with [] => b | _ => true end.
Proof.
  intros Hd. revert b. induction Hd as [|c ds' Hc _ IH]; intros b; simpl.
  - reflexivity.
  - rewrite Hc, IH. now destruct ds'.
Qed.

Lemma filter_all (p : N -> bool) (s : pystr) :
  Forall (fun c => p c = true) s -> List.filter p s = s.
Proof.
  induction 1 as [|c s' Hc _ IH]; simpl; [reflexivity|].
  now rewrite Hc, IH.
Qed.

(** [int] reads a run of ASCII digits as the number it denotes, unless
    the digits are too many. *)
Lemma py_int_digits (ds : pystr) :
  Forall (fun c => is_digit c = true) ds -> ds <> [] ->
  py_int ds
  = if (length ds <=? int_max_str_digits)%nat
    then Some (Z.of_N (digits_val ds))
    else None.
Proof.
  intros Hd Hne. unfold py_int, transform_decimal_and_space.
  assert (Hascii : forallb (fun c => c <? 128) ds = true).
  { apply forallb_forall. intros c Hc. rewrite List.Forall_forall in Hd.
    now apply digit_props, Hd. }
  rewrite Hascii.
  destruct ds as [|c ds']; [congruence|].
  pose proof (List.Forall_inv Hd) as Hc.
  destruct (digit_props c Hc) as (Hsp & _ & Hm & Hp & _ & _).
  cbn [dropwhile]. rewrite Hsp. cbn [take_sign]. rewrite Hm, Hp.
  rewrite <- (app_nil_r (c :: ds')) at 1.
  rewrite span_all.
  - rewrite grouped_digits by exact Hd. simpl forallb. cbn [andb].
    rewrite filter_all by exact Hd. now destruct (_ <=? _)%nat.
  - eapply List.Forall_impl; [|exact Hd]. intros a Ha. simpl in Ha. now rewrite Ha.
  - discriminate.
Qed.

(** The review count of a text that spells it: [<n> reviews]. *)
Lemma reviews_of_count (n : N) (tail : pystr) :
  reviews_of_text (py_str n ++ 0x20 :: tail)
  = if (length (py_str n) <=? int_max_str_digits)%nat
    then Ok (Z.of_N n)
    else Raise ValueError.
Proof.
  destruct (py_str_digits n) as [Hd Hne].
  unfold reviews_of_text.
  pose proof (first_of_split (py_str n ++ 0x20 :: tail)) as Hs.
  destruct (split_ _ _) as [pieces|]; [|discriminate].
  cbn [bind_result] in *. rewrite Hs. cbn [bind_result].
  unfold before. rewrite span_all.
  - cbn [fst]. rewrite strip_digits by exact Hd. unfold int_.
    rewrite py_int_digits by assumption. rewrite digits_val_py_str.
    now destruct (_ <=? _)%nat.
  - eapply List.Forall_impl; [|exact Hd]. intros a Ha. simpl.
    now destruct (digit_props a Ha) as (_ & _ & _ & _ & -> & _).
  - now intros c [= <-].
Qed.

(** *** Floating-point literals *)

Lemma dropwhile_snoc (p : N -> bool) (s : pystr) (c : N) :
  p c = false -> dropwhile p (s ++ [c]) = dropwhile p s ++ [c].
Proof.
  intros Hc. induction s as [|a s' IH]; simpl.
  - now rewrite Hc.
  - destruct (p a); [exact IH | reflexivity].
Qed.

Lemma dropwhile_head (p : N -> bool) (s : pystr) (c : N) :
  head (dropwhile p s) = Some c -> p c = false.
Proof.
  induction s as [|a s' IH]; simpl; [discriminate|].
  destruct (p a) eqn:Ha; [exact IH | now intros [= <-]].
Qed.

Lemma strip_with_head (p : N -> bool) (s : pystr) (c : N) :
  head (strip_with p s) = Some c -> p c = false.
Proof.
  unfold strip_with. pose proof (dropwhile_head p s) as Hh.
  destruct (dropwhile p s) as [|a x]; [discriminate|].
  specialize (Hh a eq_refl). cbn [rev].
  rewrite dropwhile_snoc by exact Hh. rewrite rev_app_distr.
  now intros [= <-].
Qed.

Lemma strip_with_idem (p : N -> bool) (s : pystr) :
  strip_with p (strip_with p s) = strip_with p s.
Proof.
  unfold strip_with at 1.
  rewrite (dropwhile_none p (strip_with p s)) by apply strip_with_head.
  unfold strip_with. rewrite rev_involutive, dropwhile_idem. reflexivity.
Qed.

Lemma strip_with_Forall (P : N -> Prop) (p : N -> bool) (s : pystr) :
  Forall P s -> Forall P (strip_with p s).
Proof.
  intros Hs. unfold strip_with.
  apply List.Forall_rev, dropwhile_Forall, List.Forall_rev, dropwhile_Forall, Hs.
Qed.



Lemma todecimal_digit (c d : N) : todecimal c = Some d -> d < 10.
Proof.
  unfold todecimal.
  destruct (find _ decimal_zeros) as [z|] eqn:Hz; [|discriminate].
  intros [= <-]. apply find_some in Hz. destruct Hz as [_ Hz].
  bools. lia.
Qed.





















(** ** The Item Extractor *)

Lemma clean_description_normalized (d : pystr) :
  clean_description d = normalized d.
Proof. unfold clean_description, normalized. now rewrite replace_nbsp. Qed.

Lemma price_of_text_spec (s : pystr) :
  price_of_text s = float_ (py_strip (without_dollars s)).
Proof. unfold price_of_text. now rewrite replace_dollar. Qed.

Lemma reviews_of_text_spec (s : pystr) :
  reviews_of_text s = int_ (py_strip (before 0x20 s)).
Proof.
  unfold reviews_of_text. pose proof (first_of_split s) as Hs.
  destruct (split_ _ s) as [pieces|]; [|discriminate].
  cbn [bind_result] in *. now rewrite Hs.
Qed.

(** The Item Extractor raises nothing but what the spec calls a
    ParseError. *)
Lemma parse_single_product_raises (t : node) (e : exn) :
  parse_single_product t = Raise e -> is_parse_error e = true.
Proof.
  unfold parse_single_product, subscript, dot_text.
  destruct (select_one sel_title t) as [[?|? ?|? ? attrs ?]|];
    try (now intros [= <-]).
  destruct (assoc _ attrs); [|now intros [= <-]]. cbn [bind_result].
  destruct (select_one sel_description t); [|now intros [= <-]].
  cbn [bind_result].
  destruct (select_one sel_price t); [|now intros [= <-]].
  cbn [bind_result]. rewrite price_of_text_spec. unfold float_.
  destruct (py_float _); [|now intros [= <-]]. cbn [bind_result].
  destruct (select_one sel_review_count t); [|now intros [= <-]].
  cbn [bind_result]. rewrite reviews_of_text_spec. unfold int_.
  destruct (py_int _); [discriminate | now intros [= <-]].
Qed.

(** A card whose price does not convert is a card the extractor fails
    on. *)
Lemma unpriced_item_raises (t : node) (p : pystr) :
  dot_text (select_one sel_price t) = Ok p ->
  price_of_text p = Raise ValueError ->
  is_raise (parse_single_product t) = true.
Proof.
  intros Hp Hf. unfold parse_single_product.
  destruct (subscript _ _); [|reflexivity]. cbn [bind_result].
  destruct (dot_text (select_one sel_description t)); [|reflexivity].
  cbn [bind_result]. rewrite Hp. cbn [bind_result]. now rewrite Hf.
Qed.


(** The numbers of an extracted product are the conversions of the price
    text and of the review text of its fragment. *)
Lemma parse_single_product_numbers (t : node) (product : Product) :
  parse_single_product t = Ok product ->
  exists p r,
    dot_text (select_one sel_price t) = Ok p /\
    price_of_text p = Ok (price product) /\
    dot_text (select_one sel_review_count t) = Ok r /\
    reviews_of_text r = Ok (num_of_reviews product).
Proof.
  unfold parse_single_product.
  destruct (subscript _ _); [|discriminate]. cbn [bind_result].
  destruct (dot_text (select_one sel_description t)); [|discriminate].
  cbn [bind_result].
  destruct (dot_text (select_one sel_price t)) as [p|]; [|discriminate].
  cbn [bind_result].
  destruct (price_of_text p) as [f|] eqn:Hf; [|discriminate].
  cbn [bind_result].
  destruct (dot_text (select_one sel_review_count t)) as [r|]; [|discriminate].
  cbn [bind_result].
  destruct (reviews_of_text r) as [n|] eqn:Hn; [|discriminate].
  cbn [bind_result].
  intros [= <-]. exists p, r. repeat split; assumption.
Qed.

Lemma digits_val_bound (ds : pystr) (acc : N) :
  Forall (fun c => is_digit c = true) ds ->
  fold_left digit_step ds acc < (acc + 1) * 10 ^ N.of_nat (length ds).
Proof.
  intros Hd. revert acc. induction Hd as [|c ds' Hc _ IH]; intros acc.
  - simpl. lia.
  - cbn [fold_left length]. rewrite Nat2N.inj_succ, N.pow_succ_r'.
    eapply N.lt_le_trans; [apply IH|].
    unfold digit_step, digit_val, is_digit in *. bools.
    assert (0 < 10 ^ N.of_nat (length ds')) by (apply N.neq_0_lt_0, N.pow_nonzero; lia).
    nia.
Qed.

(** A number of 10 to the 4300 or more is spelt with more than 4300
    digits. *)
Lemma long_numeral (n : N) :
  10 ^ N.of_nat int_max_str_digits <= n ->
  (length (py_str n) <=? int_max_str_digits)%nat = false.
Proof.
  intros Hn. apply Nat.leb_gt. apply Nat.nle_gt. intros Hl.
  pose proof (digits_val_bound (py_str n) 0 (proj1 (py_str_digits n))) as Hb.
  change (fold_left digit_step (py_str n) 0) with (digits_val (py_str n)) in Hb.
  rewrite digits_val_py_str in Hb.
  assert (10 ^ N.of_nat (length (py_str n)) <= 10 ^ N.of_nat int_max_str_digits)
    by (apply N.pow_le_mono_r; lia).
  lia.
Qed.

Lemma star_icons_counted (k : nat) (name : pystr) :
  flat_map (select_from sel_star name) (repeat star_icon k)
  = if bool_decide (name = lit "p") then repeat star_icon k else [].
Proof.
  induction k as [|k IH]; cbn [repeat flat_map]; [now case_bool_decide|].
  rewrite IH. unfold star_icon at 1. cbn [select_from flat_map app].
  unfold sel_star at 1. cbn [matches has_class].
  rewrite (bool_decide_eq_true_2 (lit "ws-icon-star" ∈ _))
    by (vm_compute; set_solver).
  rewrite andb_true_r. now case_bool_decide.
Qed.

(** What the extractor finds in a card. *)
Lemma card_fields (t d p r : pystr) (k : nat) :
  subscript (select_one sel_title (card t d p r k)) (lit "title") = Ok t /\
  dot_text (select_one sel_description (card t d p r k)) = Ok d /\
  dot_text (select_one sel_price (card t d p r k)) = Ok p /\
  length (select sel_star (card t d p r k)) = k /\
  dot_text (select_one sel_review_count (card t d p r k)) = Ok r.
Proof.
  split; [reflexivity|]. split; [|split; [|split]].
  - vm_compute. change (Ok (d ++ []) = Ok d). now rewrite app_nil_r.
  - vm_compute. change (Ok (p ++ []) = Ok p). now rewrite app_nil_r.
  - unfold select, card. cbn [flat_map select_from app].
    rewrite star_icons_counted.
    rewrite bool_decide_eq_true_2 by reflexivity.
    vm_compute matches. rewrite !app_nil_r. cbn [app].
    apply repeat_length.
  - vm_compute. change (Ok (r ++ []) = Ok r). now rewrite app_nil_r.
Qed.

(** C2, as stated, fails: a card whose review count spells a number of
    4301 digits, 10 to the 4300, has all that the claim asks of a
    fragment, and the extractor raises [ValueError] on it: [int] converts
    no numeral of more than 4300 digits. *)
Lemma long_review_count_counterexample :
  subscript (select_one sel_title long_count_card) (lit "title")
  = Ok (lit "Acer Aspire 3") /\
  dot_text (select_one sel_description long_count_card)
  = Ok (lit "A good laptop") /\
  dot_text (select_one sel_price long_count_card)
  = Ok (lit "$" ++ lit "599.00") /\
  py_float (lit "599.00") = Some (FDec false 59900 (-2)) /\
  length (select sel_star long_count_card) = 3%nat /\
  dot_text (select_one sel_review_count long_count_card)
  = Ok (py_str (10 ^ 4300) ++ lit " reviews") /\
  parse_single_product long_count_card = Raise ValueError.
Proof.
  destruct (card_fields (lit "Acer Aspire 3") (lit "A good laptop")
              (lit "$599.00") (py_str (10 ^ 4300) ++ lit " reviews") 3)
    as (HT & HD & HP & Hk & Hr).
  fold long_count_card in HT, HD, HP, Hk, Hr.
  split; [exact HT|]. split; [exact HD|]. split; [exact HP|].
  split; [reflexivity|]. split; [exact Hk|]. split; [exact Hr|].
  unfold parse_single_product. rewrite HT, HD, HP, Hr. cbn [bind_result].
  change (price_of_text (lit "$599.00")) with (Ok (FDec false 59900 (-2))).
  cbn [bind_result].
  change (py_str (10 ^ 4300) ++ lit " reviews")
    with (py_str (10 ^ 4300) ++ 0x20 :: lit "reviews").
  rewrite reviews_of_count, long_numeral; [reflexivity|].
  apply N.le_refl.
Qed.



(** C6, as stated, fails: of the price text [$$5] the remainder after one
    leading dollar sign, [$5], is no number, and yet the text is given the
    price 5, and a card with that price text is extracted. *)
Lemma price_after_one_dollar_counterexample :
  less_leading_currency (lit "$$5") = lit "$5" /\
  py_float (less_leading_currency (lit "$$5")) = None /\
  price_of_text (lit "$$5") = Ok (FDec false 5 0) /\
  parse_single_product
    (card (lit "Acer Aspire 3") (lit "A good laptop") (lit "$$5")
          (lit "12 reviews") 3)
  = Ok {| title := lit "Acer Aspire 3";
          description := lit "A good laptop";
          price := FDec false 5 0;
          rating := 3;
          num_of_reviews := 12 |}.
Proof. repeat split; vm_compute; reflexivity. Qed.

(** C6, amended: the price is [float] of the text with every dollar sign
    removed and the whitespace around the rest stripped; the extraction of
    the price raises, a [ValueError], exactly when that remainder is not a
    number, and with it the extraction of the fragment. *)
Theorem price_is_float_without_dollars (price_text : pystr) :
  (forall f, price_of_text price_text = Ok f
             <-> py_float (py_strip (without_dollars price_text)) = Some f) /\
  (forall e, price_of_text price_text = Raise e
             <-> e = ValueError /\
                 py_float (py_strip (without_dollars price_text)) = None) /\
  (forall fragment,
      dot_text (select_one sel_price fragment) = Ok price_text ->
      (forall product,
          parse_single_product fragment = Ok product ->
          py_float (py_strip (without_dollars price_text))
          = Some (price product)) /\
      (py_float (py_strip (without_dollars price_text)) = None ->
       is_raise (parse_single_product fragment) = true)).
Proof.
  split; [|split].
  - rewrite price_of_text_spec. unfold float_.
    destruct (py_float _) as [g|]; intros x; split; congruence.
  - rewrite price_of_text_spec. unfold float_.
    destruct (py_float _) as [g|]; intros x; split;
      try intros [? ?]; try intros ?; try split; congruence.
  - intros fragment Hp. split.
    + intros product Hok.
      destruct (parse_single_product_numbers _ _ Hok) as (p & r & Hp' & Hf & _).
      rewrite Hp in Hp'. injection Hp' as <-.
      rewrite price_of_text_spec in Hf. unfold float_ in Hf.
      destruct (py_float _); congruence.
    + intros Hnone. apply (unpriced_item_raises _ _ Hp).
      rewrite price_of_text_spec. unfold float_. now rewrite Hnone.
Qed.

Lemma price_is_float_without_dollars_witness :
  py_float (py_strip (without_dollars (lit "$599.00")))
  = Some (FDec false 59900 (-2)) /\
  is_raise (parse_single_product unpriced) = true.
Proof.
  split.
  - exact (proj1 (proj2 (proj2 (price_is_float_without_dollars
                                  (lit "$599.00"))) acer eq_refl)
                 acer_product eq_refl).
  - exact (proj2 (proj2 (proj2 (price_is_float_without_dollars
                                  (lit "$N/A"))) unpriced eq_refl)
                 eq_refl).
Defined.




(** ** The Page Extractor *)

Lemma comprehension_Ok {A B} (f : A -> result B) (l : list A) (ys : list B) :
  comprehension f l = Ok ys <-> Forall2 (fun x y => f x = Ok y) l ys.
Proof.
  revert ys. induction l as [|x l' IH]; intros ys; simpl.
  - split; [intros [= <-]; constructor | now inversion 1].
  - destruct (f x) as [y|e] eqn:Hx; cbn [bind_result].
    + destruct (comprehension f l') as [ys'|e] eqn:Hl; cbn [bind_result].
      * split.
        -- intros [= <-]. constructor; [exact Hx | now apply IH].
        -- inversion 1 as [|? y' ? ys'' Hy Hys]; subst.
           apply IH in Hys. congruence.
      * split; [discriminate|].
        inversion 1 as [|? y' ? ys'' Hy Hys]; subst.
        apply IH in Hys. discriminate.
    + split; [discriminate|]. inversion 1; congruence.
Qed.

Lemma comprehension_Raise {A B} (f : A -> result B) (l : list A) (x : A) :
  In x l -> is_raise (f x) = true ->
  exists x' e, In x' l /\ f x' = Raise e /\ comprehension f l = Raise e.
Proof.
  induction l as [|a l' IH]; simpl; [contradiction|].
  intros Hin Hx. destruct (f a) as [y|e] eqn:Ha; cbn [bind_result].
  - destruct Hin as [->|Hin]; [rewrite Ha in Hx; discriminate|].
    destruct (IH Hin Hx) as (x' & e & Hx' & He & ->).
    exists x', e. auto.
  - exists a, e. auto.
Qed.

(** C8: the page is extracted as the extractions of its thumbnails, one
    for one in the order of the document. *)
Theorem page_extractor_keeps_document_order
    (page_soup : node) (products : list Product) :
  parse_product_page page_soup = Ok products
  <-> Forall2 (fun thumbnail product =>
                 parse_single_product thumbnail = Ok product)
              (select sel_thumbnail page_soup) products.
Proof. unfold parse_product_page. apply comprehension_Ok. Qed.

(** The thumbnails of what comes first in a tag come first. *)
Lemma select_app (sel : selector) (name : pystr) (classes : list pystr)
    (attrs : list (pystr * pystr)) (first rest : list node) :
  select sel (Tag name classes attrs (first ++ rest))
  = select sel (Tag name classes attrs first)
    ++ select sel (Tag name classes attrs rest).
Proof. simpl. apply flat_map_app. Qed.

Lemma page_extractor_keeps_document_order_witness :
  select sel_thumbnail (document [lenovo; acer; asus]) = [lenovo; acer; asus]
  /\ parse_product_page (document [lenovo; acer; asus])
     = Ok [lenovo_product; acer_product; asus_product].
Proof.
  split; [reflexivity|].
  apply (proj2 (page_extractor_keeps_document_order
                  (document [lenovo; acer; asus])
                  [lenovo_product; acer_product; asus_product])).
  repeat constructor.
Defined.

(** C5: a page with a thumbnail the Item Extractor fails on, such as one
    whose price text does not convert, is not extracted at all: the page
    extraction raises a ParseError in place of any list of products. *)
Theorem malformed_item_fails_page (page_soup thumbnail : node) :
  In thumbnail (select sel_thumbnail page_soup) ->
  (is_raise (parse_single_product thumbnail) = true \/
   exists p, dot_text (select_one sel_price thumbnail) = Ok p /\
             price_of_text p = Raise ValueError) ->
  exists e, parse_product_page page_soup = Raise e /\
            is_parse_error e = true /\
            forall products, parse_product_page page_soup <> Ok products.
Proof.
  intros Hin Hbad.
  assert (is_raise (parse_single_product thumbnail) = true) as Hr.
  { destruct Hbad as [Hr|(p & Hp & Hf)]; [exact Hr|].
    exact (unpriced_item_raises _ _ Hp Hf). }
  destruct (comprehension_Raise _ _ _ Hin Hr) as (t' & e & _ & He & Hpage).
  exists e. unfold parse_product_page. rewrite Hpage.
  repeat split; [exact (parse_single_product_raises _ _ He) | discriminate].
Qed.

Lemma malformed_item_fails_page_witness :
  exists e, parse_product_page (document [acer; unpriced]) = Raise e /\
            is_parse_error e = true /\
            forall products,
              parse_product_page (document [acer; unpriced]) <> Ok products.
Proof.
  apply (malformed_item_fails_page (document [acer; unpriced]) unpriced).
  - right. left. reflexivity.
  - right. exists (lit "$N/A"). split; reflexivity.
Defined.

(** ** Runs *)

Section RunFacts.
Context {D : Type} `{WebDriver D}.

Lemma do_call_returns (c : call) (d : D) (w : world D) :
  respond c (session w) = (None, d) ->
  do_call c w = Some (Ok tt, answered c None d w).
Proof. intros Hr. unfold do_call. now rewrite Hr. Qed.

Lemma do_call_raises (c : call) (e : exn) (d : D) (w : world D) :
  respond c (session w) = (Some e, d) ->
  do_call c w = Some (Raise e, answered c (Some e) d w).
Proof. intros Hr. unfold do_call. now rewrite Hr. Qed.

Lemma do_call_total (c : call) (w : world D) :
  exists r d,
    respond c (session w) = (r, d) /\
    do_call c w
    = Some (match r with None => Ok tt | Some e => Raise e end,
            answered c r d w).
Proof.
  unfold do_call. destruct (respond c (session w)) as [r d].
  exists r, d. split; [reflexivity|]. now destruct r.
Qed.

Lemma calls_snoc (c : call) (evs : list event) (ev : event) :
  calls c (evs ++ [ev]) = (calls c evs + if is_called c ev then 1 else 0)%nat.
Proof.
  unfold calls. rewrite List.filter_app, length_app. simpl.
  now destruct (is_called c ev).
Qed.

Lemma returns_snoc (c : call) (evs : list event) (ev : event) :
  returns c (evs ++ [ev])
  = (returns c evs + if is_done c ev then 1 else 0)%nat.
Proof.
  unfold returns. rewrite List.filter_app, length_app. simpl.
  now destruct (is_done c ev).
Qed.

(** *** What a computation leaves as it was *)

Section Steady.
Context {X : Type} (g : world D -> X).

Lemma steady_ret {A} (a : A) : steady g (ret a).
Proof. intros w r w' [= <- <-]. reflexivity. Qed.

Lemma steady_lift {A} (x : result A) : steady g (lift x).
Proof. intros w r w' [= <- <-]. reflexivity. Qed.

Lemma steady_bind {A B} (m : run D A) (k : A -> run D B) :
  steady g m -> (forall a, steady g (k a)) -> steady g (bind m k).
Proof.
  intros Hm Hk w r w'. unfold bind.
  destruct (m w) as [[[a|e] w1]|] eqn:Hw; [| |discriminate].
  - intros Hr. rewrite (Hk a _ _ _ Hr). exact (Hm _ _ _ Hw).
  - intros [= <- <-]. exact (Hm _ _ _ Hw).
Qed.

Lemma steady_try_except {A} (body : run D A)
    (handler : exn -> option (run D A)) :
  steady g body ->
  (forall e h, handler e = Some h -> steady g h) ->
  steady g (try_except body handler).
Proof.
  intros Hb Hh w r w'. unfold try_except.
  destruct (body w) as [[[a|e] w1]|] eqn:Hw; [| |discriminate].
  - intros [= <- <-]. exact (Hb _ _ _ Hw).
  - destruct (handler e) as [h|] eqn:He.
    + intros Hr. rewrite (Hh e h He _ _ _ Hr). exact (Hb _ _ _ Hw).
    + intros [= <- <-]. exact (Hb _ _ _ Hw).
Qed.

Lemma steady_while (fuel : nat) (cond : run D bool) :
  steady g cond -> steady g (while_pass fuel cond).
Proof.
  intros Hc. induction fuel as [|fuel IH]; simpl.
  - intros w r w'. discriminate.
  - apply steady_bind; [exact Hc|].
    intros [|]; [exact IH | apply steady_ret].
Qed.

Lemma steady_for_each {A} (l : list A) (body : A -> run D unit) :
  (forall x, steady g (body x)) -> steady g (for_each l body).
Proof.
  intros Hb. induction l as [|x l' IH]; simpl.
  - apply steady_ret.
  - apply steady_bind; [apply Hb | intros _; exact IH].
Qed.
End Steady.

Lemma steady_do_call_files (c : call) : steady (D:=D) files (do_call c).
Proof.
  intros w r w' Hw. destruct (do_call_total c w) as (x & d & _ & Hc).
  rewrite Hc in Hw. now inversion Hw.
Qed.

Lemma steady_print_files (m : pystr) (e : option exn) :
  steady (D:=D) files (print m e).
Proof. intros w r w' [= <- <-]. reflexivity. Qed.

Lemma steady_do_call_calls (c0 c : call) :
  c <> c0 -> steady (D:=D) (fun w => calls c0 (events w)) (do_call c).
Proof.
  intros Hc w r w' Hw. destruct (do_call_total c w) as (x & d & _ & Hd).
  rewrite Hd in Hw. inversion Hw; subst. unfold answered. simpl.
  rewrite calls_snoc. simpl. rewrite bool_decide_eq_false_2 by exact Hc. lia.
Qed.

Lemma steady_print_calls (c0 : call) (m : pystr) (e : option exn) :
  steady (D:=D) (fun w => calls c0 (events w)) (print m e).
Proof.
  intros w r w' [= <- <-]. simpl. rewrite calls_snoc. simpl. lia.
Qed.

(** Whatever the driving of the page leaves as it was, given that the
    calls on the session and the printing do. *)
Section Driving.
Context {X : Type} (g : world D -> X).
Hypothesis g_call :
  forall c, c <> Quit -> c <> NewChrome -> steady g (do_call c).
Hypothesis g_print : forall m e, steady g (print m e).

Lemma steady_accept_cookies : steady g accept_cookies.
Proof.
  apply steady_try_except.
  - apply steady_bind; [now apply g_call|]. intros _. now apply g_call.
  - intros e h. destruct e; intros [= <-]; apply g_print.
Qed.

Lemma steady_more_button : steady g more_button.
Proof.
  apply steady_try_except.
  - repeat (apply steady_bind; [now apply g_call | intros _]).
    apply steady_ret.
  - intros e h.
    destruct e; intros [= <-];
      (apply steady_bind; [apply g_print | intros _; apply steady_ret]).
Qed.

Lemma steady_page_source : steady g page_source.
Proof.
  unfold page_source. apply steady_bind; [now apply g_call|].
  intros _ w r w' [= <- <-]. reflexivity.
Qed.

Lemma steady_scrape_products (fuel : nat) (url : pystr) :
  steady g (scrape_products fuel url).
Proof.
  unfold scrape_products.
  apply steady_bind; [now apply g_call | intros _].
  apply steady_bind; [apply steady_accept_cookies | intros _].
  apply steady_bind; [apply steady_while, steady_more_button | intros _].
  apply steady_bind; [apply steady_page_source | intros page_soup].
  apply steady_bind; [apply steady_lift | intros found].
  apply steady_ret.
Qed.
End Driving.

Lemma scrape_products_files (fuel : nat) (url : pystr) :
  steady (D:=D) files (scrape_products fuel url).
Proof.
  apply steady_scrape_products.
  - intros c _ _. apply steady_do_call_files.
  - apply steady_print_files.
Qed.

Lemma steady_do_call_refused (c : call) : steady (D:=D) refused (do_call c).
Proof.
  intros w r w' Hw. destruct (do_call_total c w) as (x & d & _ & Hc).
  rewrite Hc in Hw. now inversion Hw.
Qed.

Lemma steady_print_refused (m : pystr) (e : option exn) :
  steady (D:=D) refused (print m e).
Proof. intros w r w' [= <- <-]. reflexivity. Qed.

Lemma scrape_products_refused (fuel : nat) (url : pystr) :
  steady (D:=D) refused (scrape_products fuel url).
Proof.
  apply steady_scrape_products.
  - intros c _ _. apply steady_do_call_refused.
  - apply steady_print_refused.
Qed.

Lemma scrape_products_quits (fuel : nat) (url : pystr) :
  steady (D:=D) quits (scrape_products fuel url).
Proof.
  apply steady_scrape_products.
  - intros c Hc _. now apply steady_do_call_calls.
  - apply steady_print_calls.
Qed.

Lemma scrape_products_sessions (fuel : nat) (url : pystr) :
  steady (D:=D) sessions (scrape_products fuel url).
Proof.
  apply steady_scrape_products.
  - intros c _ Hc. now apply steady_do_call_calls.
  - apply steady_print_calls.
Qed.
End RunFacts.

(** ** The Pagination Driver *)

(** Evaluates the tests that count the events of a given trace. *)
Ltac count_events :=
  repeat match goal with
    | |- context [is_done ?c ?ev] =>
        let b := eval vm_compute in (is_done c ev) in
        change (is_done c ev) with b
    | |- context [is_called ?c ?ev] =>
        let b := eval vm_compute in (is_called c ev) in
        change (is_called c ev) with b
    end.

Section Pagination.
Context {D : Type} `{WebDriver D}.

Lemma expansions_answered (c : call) (r : option exn) (d : D) (w : world D) :
  expansions (answered c r d w)
  = (expansions w
     + if is_done (UntilPresence thumbnail_locator) (Called c r)
       then 1 else 0)%nat.
Proof. unfold expansions, answered. simpl. apply returns_snoc. Qed.

Lemma clicks_answered (c : call) (r : option exn) (d : D) (w : world D) :
  clicks (answered c r d w)
  = (clicks w + if is_done (Click more_link) (Called c r) then 1 else 0)%nat.
Proof. unfold clicks, answered. simpl. apply returns_snoc. Qed.

Lemma attempts_answered (c : call) (r : option exn) (d : D) (w : world D) :
  attempts (answered c r d w)
  = (attempts w
     + if is_called (UntilClickable more_link) (Called c r)
       then 1 else 0)%nat.
Proof. unfold attempts, answered. simpl. apply calls_snoc. Qed.

Lemma counts_printed (m : pystr) (e : option exn) (w : world D) :
  expansions (log (Printed m e) w) = expansions w /\
  clicks (log (Printed m e) w) = clicks w /\
  attempts (log (Printed m e) w) = attempts w.
Proof.
  unfold expansions, clicks, attempts, log. simpl.
  rewrite !returns_snoc, calls_snoc. simpl. lia.
Qed.

(** One turn of the loop while the more link works. *)
Lemma more_button_expands (w : world D) (d1 d2 d3 : D) :
  respond (UntilClickable more_link) (session w) = (None, d1) ->
  respond (Click more_link) d1 = (None, d2) ->
  respond (UntilPresence thumbnail_locator) d2 = (None, d3) ->
  exists w',
    more_button w = Some (Ok true, w') /\ session w' = d3 /\
    expansions w' = S (expansions w) /\ clicks w' = S (clicks w) /\
    attempts w' = S (attempts w).
Proof.
  intros H1 H2 H3. unfold more_button, try_except, bind.
  rewrite (do_call_returns _ d1 w H1).
  rewrite (do_call_returns _ d2 (answered _ None d1 w) H2).
  rewrite (do_call_returns _ d3 (answered _ None d2 (answered _ None d1 w)) H3).
  eexists. split; [reflexivity|]. split; [reflexivity|].
  rewrite !expansions_answered, !clicks_answered, !attempts_answered.
  count_events; repeat split; lia.
Qed.

(** The turn of the loop at which the more link is gone. *)
Lemma more_button_stops (w : world D) :
  more_link_gone (session w) ->
  exists w',
    more_button w = Some (Ok false, w') /\
    expansions w' = expansions w /\ clicks w' = clicks w /\
    attempts w' = S (attempts w).
Proof.
  intros (e & d1 & He & [H1|(d0 & H0 & H1)]);
    unfold more_button, try_except, bind.
  - rewrite (do_call_raises _ e d1 w H1).
    destruct e; try congruence; unfold print, ret;
      (eexists; split; [reflexivity|]);
      rewrite (proj1 (counts_printed _ _ _)),
              (proj1 (proj2 (counts_printed _ _ _))),
              (proj2 (proj2 (counts_printed _ _ _)));
      rewrite !expansions_answered, !clicks_answered, !attempts_answered;
      count_events; repeat split; lia.
  - rewrite (do_call_returns _ d0 w H0).
    rewrite (do_call_raises _ e d1 (answered _ None d0 w) H1).
    destruct e; try congruence; unfold print, ret;
      (eexists; split; [reflexivity|]);
      rewrite (proj1 (counts_printed _ _ _)),
              (proj1 (proj2 (counts_printed _ _ _))),
              (proj2 (proj2 (counts_printed _ _ _)));
      rewrite !expansions_answered, !clicks_answered, !attempts_answered;
      count_events; repeat split; lia.
Qed.

(** C3: where the more link works [n] times and is then gone, the loop
    ends, having expanded the page exactly [n] times and having turned to
    the link once more, to find it gone. *)
Theorem expansion_loop_clicks_until_gone (n fuel : nat) (w : world D) :
  more_link_works n (session w) ->
  (n < fuel)%nat ->
  exists w',
    while_pass fuel more_button w = Some (Ok tt, w') /\
    expansions w' = (expansions w + n)%nat /\
    clicks w' = (clicks w + n)%nat /\
    attempts w' = (attempts w + n + 1)%nat.
Proof.
  revert fuel w. induction n as [|n IH]; intros fuel w Hn Hf;
    (destruct fuel as [|fuel]; [lia|]); cbn [while_pass]; unfold bind.
  - destruct (more_button_stops w Hn) as (w' & -> & E1 & E2 & E3).
    exists w'. unfold ret. repeat split; lia.
  - destruct Hn as (d1 & d2 & d3 & H1 & H2 & H3 & Hn).
    destruct (more_button_expands w d1 d2 d3 H1 H2 H3)
      as (w1 & -> & Hs & E1 & E2 & E3).
    rewrite <- Hs in Hn.
    destruct (IH fuel w1 Hn ltac:(lia)) as (w' & Hw & F1 & F2 & F3).
    exists w'. repeat split; [exact Hw | lia ..].
Qed.
End Pagination.

Lemma expansion_loop_clicks_until_gone_witness :
  exists w',
    while_pass 3 more_button (browsing 2) = Some (Ok tt, w') /\
    expansions w' = (expansions (browsing 2) + 2)%nat /\
    clicks w' = (clicks (browsing 2) + 2)%nat /\
    attempts w' = (attempts (browsing 2) + 2 + 1)%nat.
Proof.
  apply (expansion_loop_clicks_until_gone 2 3 (browsing 2)); [|lia].
  do 3 eexists. repeat split.
  do 3 eexists. repeat split.
  exists TimeoutException. eexists. split; [discriminate|].
  left. reflexivity.
Defined.

(** ** The Output Sink *)

Section Sink.
Context {D : Type} `{WebDriver D}.

Lemma set_file_twice (path : pystr) (f1 f2 : file) (w : world D) :
  set_file path f2 (set_file path f1 w) = set_file path f2 w.
Proof. unfold set_file. simpl. now rewrite insert_insert_eq. Qed.

Lemma lookup_set_file (path : pystr) (f : file) (w : world D) :
  files (set_file path f w) !! path = Some f.
Proof. unfold set_file. simpl. apply lookup_insert_eq. Qed.

Lemma for_each_rows (path : pystr) (products : list Product) (f : file)
    (w : world D) :
  for_each products
    (fun product => writerow path (product_row product))
    (set_file path f w)
  = Some (Ok tt, set_file path (f ++ List.map product_row products) w).
Proof.
  revert f. induction products as [|p ps IH]; intros f; simpl.
  - unfold ret. now rewrite app_nil_r.
  - unfold bind, writerow. cbn [set_file files].
    rewrite lookup_insert_eq. cbn [from_option id].
    change {| session := session (set_file path f w);
              files := <[path := f ++ [product_row p]]>
                         (<[path := f]> (files w));
              refused := refused (set_file path f w);
              events := events (set_file path f w) |}
      with (set_file path (f ++ [product_row p]) (set_file path f w)).
    rewrite set_file_twice, IH, <- app_assoc. reflexivity.
Qed.

Lemma header_then_rows (path : pystr) (products : list Product)
    (w : world D) :
  match writerow path header (set_file path [] w) with
  | Some (Ok _, w') =>
      for_each products
        (fun product => writerow path (product_row product)) w'
  | Some (Raise e, w') => Some (Raise e, w')
  | None => None
  end
  = Some (Ok tt,
          set_file path ([] ++ [header] ++ List.map product_row products) w).
Proof.
  unfold writerow. cbn [set_file files]. rewrite lookup_insert_eq.
  cbn [from_option id app].
  change {| session := session (set_file path [] w);
            files := <[path := [header]]> (<[path := []]> (files w));
            refused := refused (set_file path [] w);
            events := events (set_file path [] w) |}
    with (set_file path [header] (set_file path [] w)).
  rewrite set_file_twice. apply for_each_rows.
Qed.

(** What a call of the sink does: where the destination can be opened
    it leaves there what was there, the header if the destination was
    fresh, and the rows; where it cannot, the call raises [OSError] and
    leaves the world as it was. *)
Lemma save_products_to_csv_spec (products : list Product) (path : pystr)
    (w : world D) :
  save_products_to_csv products path w
  = if can_open path w
    then Some (Ok tt,
               set_file path
                 (default [] (files w !! path)
                  ++ (if fresh path w then [header] else [])
                  ++ List.map product_row products) w)
    else Some (Raise OSError, w).
Proof.
  unfold save_products_to_csv, bind, isfile, st_size_is_zero, open_append,
    fresh, ret.
  destruct (files w !! path) as [[|r f]|] eqn:Hf.
  - rewrite bool_decide_eq_true_2 by eauto. cbv beta. rewrite !Hf.
    destruct (can_open path w); [|reflexivity].
    cbn [negb orb from_option id]. apply header_then_rows.
  - rewrite bool_decide_eq_true_2 by eauto. cbv beta. rewrite !Hf.
    destruct (can_open path w); [|reflexivity].
    cbn [negb orb from_option id]. rewrite for_each_rows. reflexivity.
  - rewrite bool_decide_eq_false_2 by (intros [? ?]; discriminate).
    cbv beta. rewrite !Hf.
    destruct (can_open path w); [|reflexivity].
    cbn [negb orb from_option id]. apply header_then_rows.
Qed.



Lemma fresh_set_file (path : pystr) (f : file) (w : world D) :
  fresh path (set_file path f w) = match f with [] => true | _ => false end.
Proof.
  unfold fresh, set_file. simpl. rewrite lookup_insert_eq. now destruct f.
Qed.


End Sink.

(** C10, as stated, fails: the sink called with no product on a
    destination that is a directory, and has no file of that name, raises
    [OSError] and writes nothing. *)
Lemma refused_destination_counterexample :
  let w := with_directory (lit "tablets.csv") (browsing 0) in
  fresh (lit "tablets.csv") w = true /\
  save_products_to_csv [] (lit "tablets.csv") w = Some (Raise OSError, w) /\
  files w !! lit "tablets.csv" = None.
Proof. vm_compute. repeat split. Qed.



(** ** The Catalog Runner *)

Section WholeRun.
Context {D : Type} `{WebDriver D}.

Lemma save_products_to_csv_events (products : list Product) (path : pystr) :
  steady (D:=D) events (save_products_to_csv products path).
Proof.
  intros w r w'. rewrite save_products_to_csv_spec.
  destruct (can_open path w); now intros [= <- <-].
Qed.

Lemma steady_events {X A} (g : list event -> X) (m : run D A) :
  steady events m -> steady (fun w => g (events w)) m.
Proof. intros Hm w r w' Hw. now rewrite (Hm _ _ _ Hw). Qed.

(** However the body of a [try] ends, the session is asked to quit once
    on the way out, and no file is touched on the way out. *)
Lemma try_finally_quit {A} (body : run D A) (w : world D)
    (r : result A) (w' : world D) :
  try_finally body (do_call Quit) w = Some (r, w') ->
  exists rb wb x d,
    body w = Some (rb, wb) /\
    w' = answered Quit x d wb /\
    r = match x with None => rb | Some e => Raise e end.
Proof.
  unfold try_finally.
  destruct (body w) as [[rb wb]|]; [|discriminate].
  destruct (do_call_total Quit wb) as (x & d & _ & ->).
  destruct x as [e|]; intros [= <- <-]; exists rb, wb; eauto.
Qed.

Lemma quits_answered_quit (x : option exn) (d : D) (w : world D) :
  quits (answered Quit x d w) = S (quits w) /\
  sessions (answered Quit x d w) = sessions w.
Proof.
  unfold quits, sessions, answered. simpl. rewrite !calls_snoc.
  count_events. split; lia.
Qed.

Lemma quits_answered_chrome (x : option exn) (d : D) (w : world D) :
  quits (answered NewChrome x d w) = quits w /\
  sessions (answered NewChrome x d w) = S (sessions w).
Proof.
  unfold quits, sessions, answered. simpl. rewrite !calls_snoc.
  count_events. split; lia.
Qed.

(** C9: a run that has got its session and comes to an end, whichever
    way, has asked for one session and has asked it to quit once, as the
    last thing it did. *)
Theorem session_quit_exactly_once (fuel : nat) (w : world D) (d : D)
    (r : result unit) (w' : world D) :
  respond NewChrome (session w) = (None, d) ->
  get_all_products fuel w = Some (r, w') ->
  sessions w' = S (sessions w) /\
  quits w' = S (quits w) /\
  exists evs x, events w' = evs ++ [Called Quit x].
Proof.
  intros Hc. unfold get_all_products.
  match goal with
  | |- context [try_finally ?b (do_call Quit)] => set (body := b)
  end.
  unfold bind at 1. rewrite (do_call_returns _ d w Hc).
  intros Hrun.
  destruct (try_finally_quit _ _ _ _ Hrun) as (rb & wb & x & d' & Hb & -> & _).
  assert (steady quits body /\ steady sessions body) as [Hq Hs].
  { subst body. split;
      repeat (apply steady_bind;
              [first [apply scrape_products_quits
                     |apply scrape_products_sessions
                     |apply (steady_events (calls Quit)),
                        save_products_to_csv_events
                     |apply (steady_events (calls NewChrome)),
                        save_products_to_csv_events]
              |intros ?]);
      first [apply (steady_events (calls Quit)), save_products_to_csv_events
            |apply (steady_events (calls NewChrome)),
               save_products_to_csv_events]. }
  destruct (quits_answered_quit x d' wb) as [-> ->].
  rewrite (Hq _ _ _ Hb), (Hs _ _ _ Hb).
  destruct (quits_answered_chrome None d w) as [-> ->].
  repeat split. eexists _, x. reflexivity.
Qed.

(** C1, amended: when the scraping of a job raises, the run ends with an
    exception and has written no file, whichever job it was: the six
    pages are scraped before the first file is written.  The exception
    is that of the scraping, unless quitting the session raises one of
    its own. *)
Theorem failed_extraction_writes_nothing (fuel i : nat) (e : exn)
    (w : world D) (d : D) :
  respond NewChrome (session w) = (None, d) ->
  scraping_raises_at fuel URLS i e (answered NewChrome None d w) ->
  is_parse_error e = true ->
  exists e' w',
    get_all_products fuel w = Some (Raise e', w') /\
    files w' = files w /\
    (e' = e \/ exists evs, events w' = evs ++ [Called Quit (Some e')]).
Proof.
  intros Hc Hs _. unfold get_all_products.
  match goal with
  | |- context [try_finally ?b (do_call Quit)] => set (body := b)
  end.
  unfold bind at 1. rewrite (do_call_returns _ d w Hc).
  set (w0 := answered NewChrome None d w) in *.
  assert (exists wb, body w0 = Some (Raise e, wb) /\ files wb = files w0)
    as (wb & Hb & Hf).
  { subst body. unfold URLS in Hs.
    destruct i as [|[|[|[|[|[|i]]]]]]; cbn [scraping_raises_at] in Hs;
      repeat match type of Hs with
        | exists _, _ => destruct Hs as [? Hs]
        | _ /\ _ => let Hx := fresh "Hx" in destruct Hs as [Hx Hs]
        end;
      try contradiction;
      unfold bind;
      repeat match goal with
        | Hx : scrape_products ?f ?u ?v = Some _
          |- context [scrape_products ?f ?u ?v] =>
            rewrite Hx; cbv beta iota;
            pose proof (scrape_products_files _ _ _ _ _ Hx); clear Hx
        end;
      eexists; (split; [reflexivity | congruence]). }
  unfold try_finally. rewrite Hb.
  destruct (do_call_total Quit wb) as (x & d' & _ & ->).
  destruct x as [e'|].
  - exists e'. eexists. split; [reflexivity|]. split; [exact Hf|].
    right. eexists. reflexivity.
  - exists e. eexists. split; [reflexivity|]. split; [exact Hf|]. now left.
Qed.
End WholeRun.

(** The shop of [bad_catalogue]: the home page is scraped, the scraping
    of the computers page raises. *)
Lemma bad_catalogue_raises_at_computers :
  scraping_raises_at 5 URLS 1 ValueError
    (answered NewChrome None (session (open_shop bad_catalogue))
              (open_shop bad_catalogue)).
Proof.
  cbn [scraping_raises_at URLS].
  eexists _, _. split; [vm_compute; reflexivity|].
  eexists. vm_compute. reflexivity.
Qed.

(** C1, as stated, fails: the scraping of the second job raises, and the
    destination of the first has not been written. *)
Lemma preceding_files_counterexample :
  scraping_raises_at 5 URLS 1 ValueError
    (answered NewChrome None (session (open_shop bad_catalogue))
              (open_shop bad_catalogue)) /\
  get_all_products 5 (open_shop bad_catalogue)
  = Some (Raise ValueError, bad_run_end) /\
  files bad_run_end !! lit "home.csv" = None.
Proof.
  split; [exact bad_catalogue_raises_at_computers|].
  split; vm_compute; reflexivity.
Qed.

Lemma failed_extraction_writes_nothing_witness :
  exists e' w',
    get_all_products 5 (open_shop bad_catalogue) = Some (Raise e', w') /\
    files w' = files (open_shop bad_catalogue) /\
    (e' = ValueError \/ exists evs, events w' = evs ++ [Called Quit (Some e')]).
Proof.
  exact (failed_extraction_writes_nothing 5 1 ValueError
           (open_shop bad_catalogue) _ eq_refl
           bad_catalogue_raises_at_computers eq_refl).
Defined.

Lemma session_quit_exactly_once_witness :
  (sessions good_run_end = S (sessions (open_shop good_catalogue)) /\
   quits good_run_end = S (quits (open_shop good_catalogue)) /\
   exists evs x, events good_run_end = evs ++ [Called Quit x]) /\
  (sessions bad_run_end = S (sessions (open_shop bad_catalogue)) /\
   quits bad_run_end = S (quits (open_shop bad_catalogue)) /\
   exists evs x, events bad_run_end = evs ++ [Called Quit x]).
Proof.
  split.
  - refine (session_quit_exactly_once 5 (open_shop good_catalogue)
              (session (open_shop good_catalogue)) (Ok tt) good_run_end _ _);
      [reflexivity | vm_compute; reflexivity].
  - refine (session_quit_exactly_once 5 (open_shop bad_catalogue)
              (session (open_shop bad_catalogue)) (Raise ValueError)
              bad_run_end _ _);
      [reflexivity | vm_compute; reflexivity].
Defined.

(** * Further properties *)

(** ** Driving the page *)

Section Driving_more.
Context {D : Type} `{WebDriver D}.

(** X1: [accept_cookies] always ends and touches no file; it lets through
    no exception of Selenium, whichever of its two calls raises it; and
    where the wait for the banner raises, the button is not clicked. *)
Theorem accept_cookies_contains_selenium (w : world D) :
  exists r w',
    accept_cookies w = Some (r, w') /\
    files w' = files w /\
    (r = Ok tt \/ exists e, r = Raise e /\ is_selenium e = false) /\
    (fst (respond (UntilPresence accept_cookies_button) (session w)) <> None ->
     calls (Click accept_cookies_button) (events w')
     = calls (Click accept_cookies_button) (events w)).
Proof.
  unfold accept_cookies, try_except, bind.
  destruct (respond (UntilPresence accept_cookies_button) (session w))
    as [[e1|] d1] eqn:H1.
  - rewrite (do_call_raises _ e1 d1 w H1).
    destruct e1; unfold print;
      (eexists _, _; split; [reflexivity|]; split; [reflexivity|]);
      (split; [first [now left | right; eexists; split; reflexivity]|]);
      intros _; cbn [events log answered]; rewrite ?calls_snoc;
      count_events; cbv iota; lia.
  - rewrite (do_call_returns _ d1 w H1).
    destruct (respond (Click accept_cookies_button) d1) as [[e2|] d2] eqn:H2.
    + rewrite (do_call_raises _ e2 d2 (answered _ None d1 w) H2).
      destruct e2; unfold print;
        (eexists _, _; split; [reflexivity|]; split; [reflexivity|]);
        (split; [first [now left | right; eexists; split; reflexivity]|]);
        cbn [fst]; congruence.
    + rewrite (do_call_returns _ d2 (answered _ None d1 w) H2).
      eexists _, _. split; [reflexivity|]. split; [reflexivity|].
      split; [now left|]. cbn [fst]. congruence.
Qed.

(** X2: [more_button] always ends and touches no file; it says yes
    exactly when the wait for the link, the click and the wait for the
    thumbnails all return, and otherwise says no, whatever was raised,
    unless that is no [Exception] at all. *)
Theorem more_button_outcome (w : world D) :
  exists r w',
    more_button w = Some (r, w') /\
    files w' = files w /\
    (r = Ok true <-> more_link_answers (session w)) /\
    (r = Ok true \/ r = Ok false \/ r = Raise KeyboardInterrupt).
Proof.
  unfold more_button, try_except, bind, more_link_answers.
  destruct (respond (UntilClickable more_link) (session w))
    as [[e1|] d1] eqn:H1.
  { rewrite (do_call_raises _ e1 d1 w H1).
    destruct e1; unfold print, ret;
      (eexists _, _; split; [reflexivity|]; split; [reflexivity|]);
      (split; [split; [discriminate | intros (? & ? & ? & ? & _); congruence]
              | auto]). }
  rewrite (do_call_returns _ d1 w H1).
  destruct (respond (Click more_link) d1) as [[e2|] d2] eqn:H2.
  { rewrite (do_call_raises _ e2 d2 (answered _ None d1 w) H2).
    destruct e2; unfold print, ret;
      (eexists _, _; split; [reflexivity|]; split; [reflexivity|]);
      (split; [split; [discriminate
                      | intros (? & ? & ? & Ha & Hb & _); congruence]
              | auto]). }
  rewrite (do_call_returns _ d2 (answered _ None d1 w) H2).
  destruct (respond (UntilPresence thumbnail_locator) d2)
    as [[e3|] d3] eqn:H3.
  { rewrite (do_call_raises _ e3 d3
               (answered _ None d2 (answered _ None d1 w)) H3).
    destruct e3; unfold print, ret;
      (eexists _, _; split; [reflexivity|]; split; [reflexivity|]);
      (split; [split; [discriminate
                      | intros (? & ? & ? & Ha & Hb & Hc); congruence]
              | auto]). }
  rewrite (do_call_returns _ d3
             (answered _ None d2 (answered _ None d1 w)) H3).
  unfold ret. eexists _, _. split; [reflexivity|]. split; [reflexivity|].
  split; [|auto]. split; [|reflexivity]. intros _. eauto 6.
Qed.
End Driving_more.

(** ** Extracting an item *)

(** X3: the exception of a fragment that lacks an element the extractor
    reads is fixed by the first one lacking, in the order title,
    description, price, review count: no title element is a [TypeError],
    a title element without the attribute a [KeyError], any other element
    missing an [AttributeError]. *)
Theorem missing_element_exceptions (t : node) :
  (select_one sel_title t = None ->
   parse_single_product t = Raise TypeError) /\
  (forall name classes attrs contents,
      select_one sel_title t = Some (Tag name classes attrs contents) ->
      assoc (lit "title") attrs = None ->
      parse_single_product t = Raise KeyError) /\
  (forall T,
      subscript (select_one sel_title t) (lit "title") = Ok T ->
      (select_one sel_description t = None ->
       parse_single_product t = Raise AttributeError) /\
      (forall D,
          dot_text (select_one sel_description t) = Ok D ->
          (select_one sel_price t = None ->
           parse_single_product t = Raise AttributeError) /\
          (forall p f,
              dot_text (select_one sel_price t) = Ok p ->
              price_of_text p = Ok f ->
              select_one sel_review_count t = None ->
              parse_single_product t = Raise AttributeError))).
Proof.
  unfold parse_single_product. split; [|split].
  - now intros ->.
  - intros name classes attrs contents -> Ha. cbn [subscript]. now rewrite Ha.
  - intros T ->. cbn [bind_result]. split; [now intros ->|].
    intros D ->. cbn [bind_result]. split; [now intros ->|].
    intros p f -> Hf. cbn [bind_result]. rewrite Hf. cbn [bind_result].
    now intros ->.
Qed.

Lemma missing_element_exceptions_witness :
  parse_single_product unnamed_fragment = Raise KeyError /\
  parse_single_product bare_fragment = Raise AttributeError.
Proof.
  split.
  - exact (proj1 (proj2 (missing_element_exceptions unnamed_fragment))
                 (lit "a") [lit "title"] [(lit "href", lit "#")]
                 [NavigableString (lit "Acer")] eq_refl eq_refl).
  - exact (proj1 (proj2 (proj2 (missing_element_exceptions bare_fragment))
                        (lit "Acer") eq_refl)
                 eq_refl).
Defined.

(** What an extracted product was made of. *)
Lemma parse_single_product_fields (t : node) (product : Product) :
  parse_single_product t = Ok product ->
  exists T D p r,
    subscript (select_one sel_title t) (lit "title") = Ok T /\
    dot_text (select_one sel_description t) = Ok D /\
    dot_text (select_one sel_price t) = Ok p /\
    dot_text (select_one sel_review_count t) = Ok r /\
    price_of_text p = Ok (price product) /\
    reviews_of_text r = Ok (num_of_reviews product) /\
    title product = T /\
    description product = clean_description D /\
    rating product = Z.of_nat (length (select sel_star t)).
Proof.
  unfold parse_single_product.
  destruct (subscript _ _) as [T|]; [|discriminate]. cbn [bind_result].
  destruct (dot_text (select_one sel_description t)) as [D|];
    [|discriminate].
  cbn [bind_result].
  destruct (dot_text (select_one sel_price t)) as [p|]; [|discriminate].
  cbn [bind_result].
  destruct (price_of_text p) as [f|] eqn:Hf; [|discriminate].
  cbn [bind_result].
  destruct (dot_text (select_one sel_review_count t)) as [r|];
    [|discriminate].
  cbn [bind_result].
  destruct (reviews_of_text r) as [n|] eqn:Hn; [|discriminate].
  cbn [bind_result]. intros [= <-]. exists T, D, p, r.
  repeat split; assumption.
Qed.

Lemma nbsp_free_map (d : pystr) :
  Forall (fun c => c <> 0xA0)
         (List.map (fun c => if c =? 0xA0 then 0x20 else c) d).
Proof.
  induction d as [|c d' IH]; simpl; constructor; [|exact IH].
  destruct (N.eqb_spec c 0xA0); [discriminate | assumption].
Qed.

Lemma map_nbsp_free (d : pystr) :
  Forall (fun c => c <> 0xA0) d ->
  List.map (fun c => if c =? 0xA0 then 0x20 else c) d = d.
Proof.
  induction 1 as [|c d' Hc _ IH]; simpl; [reflexivity|].
  rewrite IH. destruct (N.eqb_spec c 0xA0); [contradiction | reflexivity].
Qed.

Lemma strip_with_last (p : N -> bool) (s : pystr) (c : N) :
  head (rev (strip_with p s)) = Some c -> p c = false.
Proof. unfold strip_with. rewrite rev_involutive. apply dropwhile_head. Qed.

(** X5: the description of an extracted product holds no non-breaking
    space and neither starts nor ends with whitespace, and cleaning it
    again changes nothing. *)
Theorem description_is_clean (t : node) (product : Product) :
  parse_single_product t = Ok product ->
  Forall (fun c => c <> 0xA0) (description product) /\
  (forall c, head (description product) = Some c -> isspace c = false) /\
  (forall c, head (rev (description product)) = Some c ->
             isspace c = false) /\
  clean_description (description product) = description product.
Proof.
  intros Hok. apply parse_single_product_fields in Hok.
  destruct Hok as (T & D & p & r & _ & _ & _ & _ & _ & _ & _ & -> & _).
  rewrite !clean_description_normalized. unfold normalized.
  change py_strip with (strip_with isspace).
  assert (Forall (fun c => c <> 0xA0)
            (strip_with isspace
               (List.map (fun c => if c =? 0xA0 then 0x20 else c) D)))
    as Hfree by apply strip_with_Forall, nbsp_free_map.
  split; [exact Hfree|]. split; [apply strip_with_head|].
  split; [apply strip_with_last|].
  rewrite (map_nbsp_free _ Hfree). apply strip_with_idem.
Qed.

Lemma description_is_clean_witness :
  Forall (fun c => c <> 0xA0) (description acer_product) /\
  (forall c, head (description acer_product) = Some c -> isspace c = false) /\
  (forall c, head (rev (description acer_product)) = Some c ->
             isspace c = false) /\
  clean_description (description acer_product) = description acer_product.
Proof. exact (description_is_clean acer acer_product eq_refl). Defined.

(** X6: a review text that starts with a space is never converted: the
    piece before the first space is empty. *)
Theorem reviews_after_leading_space (s : pystr) :
  reviews_of_text (0x20 :: s) = Raise ValueError.
Proof. rewrite reviews_of_text_spec. reflexivity. Qed.

Lemma dropwhile_all (p : N -> bool) (pad s : pystr) :
  Forall (fun c => p c = true) pad -> dropwhile p (pad ++ s) = dropwhile p s.
Proof.
  induction 1 as [|c pad' Hc _ IH]; simpl; [reflexivity|]. now rewrite Hc.
Qed.

Lemma strip_with_padding (p : N -> bool) (left right s : pystr) :
  Forall (fun c => p c = true) left ->
  Forall (fun c => p c = true) right ->
  strip_with p (left ++ s ++ right) = strip_with p s.
Proof.
  intros Hl Hr. unfold strip_with. rewrite (dropwhile_all p left) by exact Hl.
  destruct (dropwhile_suffix p s) as (pre & Es & Hpre).
  destruct (dropwhile p s) as [|c x] eqn:Hx.
  - rewrite app_nil_r in Es. subst pre.
    rewrite <- (app_nil_r (s ++ right)), dropwhile_all; [reflexivity|].
    apply Forall_app. now split.
  - assert (p c = false) as Hc.
    { apply (dropwhile_head p s). now rewrite Hx. }
    rewrite Es at 1. rewrite <- app_assoc, dropwhile_all by exact Hpre.
    cbn [app dropwhile]. rewrite Hc.
    change (c :: x ++ right) with ((c :: x) ++ right).
    rewrite rev_app_distr, dropwhile_all; [reflexivity|].
    now apply List.Forall_rev.
Qed.

Lemma dollar_not_space (c : N) : isspace c = true -> negb (c =? 0x24) = true.
Proof.
  intros Hc. destruct (N.eqb_spec c 0x24) as [->|Hne]; [|reflexivity].
  vm_compute in Hc. discriminate.
Qed.

(** X7: for the price, dollar signs count nowhere and whitespace counts
    nowhere around the text: a dollar sign put anywhere in a price text,
    and whitespace put before and after it, leave the price, or the
    failure, as it was. *)
Theorem price_ignores_dollars_and_padding (left right a b : pystr) :
  Forall (fun c => isspace c = true) left ->
  Forall (fun c => isspace c = true) right ->
  price_of_text (left ++ (a ++ 0x24 :: b) ++ right) = price_of_text (a ++ b).
Proof.
  intros Hl Hr. rewrite !price_of_text_spec. unfold without_dollars.
  rewrite !List.filter_app. cbn [List.filter N.eqb Pos.eqb negb].
  rewrite (filter_all _ left), (filter_all _ right).
  - change py_strip with (strip_with isspace).
    rewrite strip_with_padding by assumption. reflexivity.
  - eapply List.Forall_impl; [|exact Hr]. exact dollar_not_space.
  - eapply List.Forall_impl; [|exact Hl]. exact dollar_not_space.
Qed.

Lemma price_ignores_dollars_and_padding_witness :
  price_of_text (lit " " ++ (lit "599" ++ 0x24 :: lit ".00") ++ [0x09; 0xA0])
  = price_of_text (lit "599" ++ lit ".00").
Proof.
  apply price_ignores_dollars_and_padding; repeat constructor.
Defined.

(** X8: a price text made of dollar signs and whitespace alone, the empty
    text among them, is never converted. *)
Theorem price_of_blank_text (s : pystr) :
  Forall (fun c => c = 0x24 \/ isspace c = true) s ->
  price_of_text s = Raise ValueError.
Proof.
  intros Hs. rewrite price_of_text_spec.
  assert (Forall (fun c => isspace c = true) (without_dollars s)) as Hw.
  { unfold without_dollars. induction Hs as [|c s' Hc _ IH]; simpl.
    - constructor.
    - destruct (N.eqb_spec c 0x24) as [->|Hne]; simpl; [exact IH|].
      constructor; [now destruct Hc | exact IH]. }
  change py_strip with (strip_with isspace).
  rewrite <- (app_nil_r (without_dollars s)).
  change (without_dollars s ++ []) with (without_dollars s ++ [] ++ []).
  rewrite strip_with_padding by (assumption || constructor).
  reflexivity.
Qed.

Lemma price_of_blank_text_witness :
  price_of_text (lit " $ ") = Raise ValueError.
Proof.
  apply price_of_blank_text.
  repeat constructor; (now left) || (now right).
Defined.

(** ** Extracting a page *)

Lemma comprehension_first_raise {A B} (f : A -> result B) (l : list A)
    (e : exn) :
  comprehension f l = Raise e
  <-> exists before x after,
      l = before ++ x :: after /\
      Forall (fun y => is_raise (f y) = false) before /\
      f x = Raise e.
Proof.
  induction l as [|a l' IH]; simpl.
  - split; [discriminate|]. intros (before & x & after & Hl & _).
    now destruct before.
  - destruct (f a) as [y|e'] eqn:Ha; cbn [bind_result].
    + split.
      * destruct (comprehension f l') as [ys|e''] eqn:Hl; cbn [bind_result];
          [discriminate|].
        intros [= ->]. destruct (proj1 IH eq_refl)
          as (before & x & after & -> & Hb & Hx).
        exists (a :: before), x, after. split; [reflexivity|].
        split; [|exact Hx]. constructor; [now rewrite Ha | exact Hb].
      * intros (before & x & after & Hl & Hb & Hx).
        destruct before as [|b before']; simpl in Hl; injection Hl as <- ->.
        { congruence. }
        inversion Hb as [|? ? _ Hb']; subst.
        assert (comprehension f (before' ++ x :: after) = Raise e) as ->.
        { apply IH. exists before', x, after. auto. }
        reflexivity.
    + split.
      * intros [= ->]. exists [], a, l'. repeat split; [constructor | exact Ha].
      * intros (before & x & after & Hl & Hb & Hx).
        destruct before as [|b before']; simpl in Hl; injection Hl as <- ->.
        { congruence. }
        inversion Hb as [|? ? Hb0 _]; subst. rewrite Ha in Hb0. discriminate.
Qed.

(** X9: the exception of a page is that of its first thumbnail, in the
    order of the document, that the Item Extractor fails on; thumbnails
    after it are not looked at. *)
Theorem page_raises_first_failure (page_soup : node) (e : exn) :
  parse_product_page page_soup = Raise e
  <-> exists before thumbnail after,
      select sel_thumbnail page_soup = before ++ thumbnail :: after /\
      Forall (fun t => is_raise (parse_single_product t) = false) before /\
      parse_single_product thumbnail = Raise e.
Proof. unfold parse_product_page. apply comprehension_first_raise. Qed.

(** ** Scraping a page *)

Section Scraping_more.
Context {D : Type} `{WebDriver D}.

Lemma gets_snoc (evs : list event) (ev : event) :
  gets (evs ++ [ev])
  = gets evs ++ match ev with
                | Called (Get url) _ => [url]
                | _ => []
                end.
Proof. unfold gets. rewrite flat_map_app. simpl. now rewrite app_nil_r. Qed.

Lemma steady_do_call_gets (c : call) :
  (forall url, c <> Get url) ->
  steady (D:=D) (fun w => gets (events w)) (do_call c).
Proof.
  intros Hc w r w' Hw. destruct (do_call_total c w) as (x & d & _ & Hd).
  rewrite Hd in Hw. inversion Hw; subst. unfold answered. simpl.
  rewrite gets_snoc. destruct c; try apply app_nil_r.
  now destruct (Hc url).
Qed.

Lemma steady_print_gets (m : pystr) (e : option exn) :
  steady (D:=D) (fun w => gets (events w)) (print m e).
Proof.
  intros w r w' [= <- <-]. simpl. rewrite gets_snoc. apply app_nil_r.
Qed.

Lemma steady_gets_after_get (fuel : nat) :
  steady (D:=D) (fun w => gets (events w))
    (bind accept_cookies
       (fun _ => bind (while_pass fuel more_button)
          (fun _ => bind page_source
             (fun page_soup => bind (lift (parse_product_page page_soup))
                (fun found => ret ([] ++ found)))))).
Proof.
  apply steady_bind; [|intros _].
  { apply steady_try_except.
    - apply steady_bind; [|intros _]; apply steady_do_call_gets; discriminate.
    - intros e h. destruct e; intros [= <-]; apply steady_print_gets. }
  apply steady_bind; [|intros _].
  { apply steady_while, steady_try_except.
    - repeat (apply steady_bind;
              [apply steady_do_call_gets; discriminate | intros _]).
      apply steady_ret.
    - intros e h.
      destruct e; intros [= <-];
        (apply steady_bind; [apply steady_print_gets
                            | intros _; apply steady_ret]). }
  apply steady_bind; [|intros page_soup].
  { unfold page_source. apply steady_bind;
      [apply steady_do_call_gets; discriminate|].
    intros _ w r w' [= <- <-]. reflexivity. }
  apply steady_bind; [apply steady_lift | intros found; apply steady_ret].
Qed.

(** A scraping sends the session to its address, once, whatever comes of
    it. *)
Lemma scrape_products_gets (fuel : nat) (url : pystr) (w : world D)
    (r : result (list Product)) (w' : world D) :
  scrape_products fuel url w = Some (r, w') ->
  gets (events w') = gets (events w) ++ [url].
Proof.
  unfold scrape_products. unfold bind at 1.
  destruct (do_call_total (Get url) w) as (x & d & _ & ->).
  assert (gets (events (answered (Get url) x d w)) = gets (events w) ++ [url])
    as Hg by (unfold answered; simpl; apply gets_snoc).
  destruct x as [e|].
  - intros [= <- <-]. exact Hg.
  - intros Hrest. rewrite <- Hg.
    exact (steady_gets_after_get fuel _ _ _ Hrest).
Qed.

(** X10: the list a scraping returns is the extraction of the page the
    session shows when the scraping ends. *)
Theorem scrape_products_returns_shown_page (fuel : nat) (url : pystr)
    (w : world D) (products : list Product) (w' : world D) :
  scrape_products fuel url w = Some (Ok products, w') ->
  parse_product_page (page (session w')) = Ok products.
Proof.
  unfold scrape_products, page_source, bind, lift, ret.
  destruct (do_call (Get url) w) as [[[[]|e1] w1]|];
    cbv beta iota; [|discriminate ..].
  destruct (accept_cookies w1) as [[[[]|e2] w2]|];
    cbv beta iota; [|discriminate ..].
  destruct (while_pass fuel more_button w2) as [[[[]|e3] w3]|];
    cbv beta iota; [|discriminate ..].
  destruct (do_call PageSource w3) as [[[[]|e4] w4]|];
    cbv beta iota; [|discriminate ..].
  destruct (parse_product_page (page (session w4))) as [found|e5] eqn:Hp;
    cbv beta iota; [|discriminate].
  intros [= <- <-]. exact Hp.
Qed.

(** X11: when the session cannot be sent to the address, the scraping
    raises what the call raised, and nothing else has been asked of the
    session: no cookie banner waited for, no link clicked, no page read. *)
Theorem scrape_products_failed_navigation (fuel : nat) (url : pystr)
    (w : world D) (e : exn) (d : D) :
  respond (Get url) (session w) = (Some e, d) ->
  scrape_products fuel url w
  = Some (Raise e,
          {| session := d;
             files := files w;
             refused := refused w;
             events := events w ++ [Called (Get url) (Some e)] |}).
Proof.
  intros Hg. unfold scrape_products, bind.
  now rewrite (do_call_raises _ e d w Hg).
Qed.

(** X12: a scraping that ends, whichever way, has written no file, has
    neither asked for a session nor asked the session to quit, and has
    sent the session to one address, its own. *)
Theorem scrape_products_footprint (fuel : nat) (url : pystr) (w : world D)
    (r : result (list Product)) (w' : world D) :
  scrape_products fuel url w = Some (r, w') ->
  files w' = files w /\
  sessions w' = sessions w /\
  quits w' = quits w /\
  gets (events w') = gets (events w) ++ [url].
Proof.
  intros Hrun. repeat split.
  - exact (scrape_products_files _ _ _ _ _ Hrun).
  - exact (scrape_products_sessions _ _ _ _ _ Hrun).
  - exact (scrape_products_quits _ _ _ _ _ Hrun).
  - exact (scrape_products_gets _ _ _ _ _ Hrun).
Qed.

(** X13: the loop has no bound of its own: on a site whose more link
    answers in every state the session can come to, it does not end,
    whatever the fuel. *)
Theorem expansion_loop_without_end (reachable : D -> Prop) :
  (forall d,
      reachable d ->
      exists d1 d2 d3,
        respond (UntilClickable more_link) d = (None, d1) /\
        respond (Click more_link) d1 = (None, d2) /\
        respond (UntilPresence thumbnail_locator) d2 = (None, d3) /\
        reachable d3) ->
  forall fuel w,
    reachable (session w) -> while_pass fuel more_button w = None.
Proof.
  intros Hstep fuel. induction fuel as [|fuel IH]; intros w Hw;
    [reflexivity|].
  cbn [while_pass]. unfold bind.
  destruct (Hstep _ Hw) as (d1 & d2 & d3 & H1 & H2 & H3 & Hd3).
  destruct (more_button_expands w d1 d2 d3 H1 H2 H3) as (w1 & -> & Hs & _).
  apply IH. now rewrite Hs.
Qed.
End Scraping_more.

Lemma scrape_products_failed_navigation_witness :
  scrape_products 5 (lit "https://webscraper.io/nowhere") (browsing 2)
  = Some (Raise WebDriverException,
          {| session := session (browsing 2);
             files := files (browsing 2);
             refused := refused (browsing 2);
             events := events (browsing 2)
                       ++ [Called (Get (lit "https://webscraper.io/nowhere"))
                                  (Some WebDriverException)] |}).
Proof.
  exact (scrape_products_failed_navigation 5
           (lit "https://webscraper.io/nowhere") (browsing 2)
           WebDriverException (session (browsing 2)) eq_refl).
Defined.

Lemma expansion_loop_without_end_witness :
  while_pass 1000 more_button endless_world = None.
Proof.
  apply (expansion_loop_without_end (fun _ => True)); [|exact I].
  intros d _. exists d, d, d. repeat split.
Defined.

Lemma scrape_products_returns_shown_page_witness :
  parse_product_page (page (session home_scraped)) = Ok [acer_product].
Proof.
  apply (scrape_products_returns_shown_page 5 HOME_URL
           (open_shop good_catalogue) [acer_product] home_scraped).
  vm_compute. reflexivity.
Defined.

Lemma scrape_products_footprint_witness :
  files home_scraped = files (open_shop good_catalogue) /\
  sessions home_scraped = sessions (open_shop good_catalogue) /\
  quits home_scraped = quits (open_shop good_catalogue) /\
  gets (events home_scraped)
  = gets (events (open_shop good_catalogue)) ++ [HOME_URL].
Proof.
  apply (scrape_products_footprint 5 HOME_URL (open_shop good_catalogue)
           (Ok [acer_product]) home_scraped).
  vm_compute. reflexivity.
Defined.

(** ** Saving *)

Section Sink_more.
Context {D : Type} `{WebDriver D}.

Lemma save_products_to_csv_written (products : list Product) (path : pystr)
    (w : world D) :
  can_open path w = true ->
  save_products_to_csv products path w
  = Some (Ok tt, set_file path (written products path w) w).
Proof. intros Hopen. now rewrite save_products_to_csv_spec, Hopen. Qed.

Lemma save_products_to_csv_refused (products : list Product) (path : pystr)
    (w : world D) :
  can_open path w = false ->
  save_products_to_csv products path w = Some (Raise OSError, w).
Proof. intros Hopen. now rewrite save_products_to_csv_spec, Hopen. Qed.

Lemma lookup_set_file_ne (path other : pystr) (f : file) (w : world D) :
  path <> other -> files (set_file path f w) !! other = files w !! other.
Proof. intros Hne. unfold set_file. simpl. now apply lookup_insert_ne. Qed.

Lemma written_set_file_ne (products : list Product) (path other : pystr)
    (f : file) (w : world D) :
  path <> other ->
  written products other (set_file path f w) = written products other w.
Proof.
  intros Hne. unfold written, fresh.
  now rewrite (lookup_set_file_ne _ _ _ _ Hne).
Qed.

Lemma written_files (products : list Product) (path : pystr)
    (w1 w2 : world D) :
  files w1 = files w2 -> written products path w1 = written products path w2.
Proof. intros Hf. unfold written, fresh. now rewrite Hf. Qed.


(** X15: saving one list and then another to the same destination is
    saving the two lists joined: the second call adds no header and loses
    no row, whatever the destination held before. *)
Theorem save_products_to_csv_twice (first second : list Product)
    (path : pystr) (w : world D) :
  bind (save_products_to_csv first path)
       (fun _ => save_products_to_csv second path) w
  = save_products_to_csv (first ++ second) path w.
Proof.
  unfold bind. destruct (can_open path w) eqn:Hopen.
  2: { now rewrite !save_products_to_csv_refused. }
  rewrite !save_products_to_csv_written, set_file_twice by exact Hopen.
  do 2 f_equal. unfold written at 1.
  rewrite lookup_set_file, fresh_set_file. cbn [from_option id].
  assert (written first path w <> []) as Hne.
  { unfold written, fresh.
    destruct (files w !! path) as [[|r f]|]; cbn [from_option id app];
      discriminate. }
  destruct (written first path w) as [|r f] eqn:Hw; [congruence|].
  rewrite <- Hw. unfold written. rewrite map_app, <- !app_assoc.
  reflexivity.
Qed.

End Sink_more.


(** ** The whole run, further *)

(** Two destinations of the run differ. *)
Ltac paths_differ :=
  let E := fresh "E" in intros E; vm_compute in E; discriminate E.

Section WholeRun_more.
Context {D : Type} `{WebDriver D}.

(** X17: when no session can be had, the run raises what the attempt
    raised and has done nothing else: no page was asked for, no file was
    written, and no session was asked to quit. *)
Theorem get_all_products_without_session (fuel : nat) (w : world D)
    (e : exn) (d : D) :
  respond NewChrome (session w) = (Some e, d) ->
  get_all_products fuel w
  = Some (Raise e,
          {| session := d;
             files := files w;
             refused := refused w;
             events := events w ++ [Called NewChrome (Some e)] |}).
Proof.
  intros Hc. unfold get_all_products, bind.
  now rewrite (do_call_raises _ e d w Hc).
Qed.

Lemma gets_answered (c : call) (x : option exn) (d : D) (w : world D) :
  (forall url, c <> Get url) ->
  gets (events (answered c x d w)) = gets (events w).
Proof.
  intros Hc. unfold answered. simpl. rewrite gets_snoc.
  destruct c; try apply app_nil_r. now destruct (Hc url).
Qed.

Lemma save_products_to_csv_ends (products : list Product) (path : pystr)
    (w : world D) :
  exists r w',
    save_products_to_csv products path w = Some (r, w') /\
    events w' = events w.
Proof.
  rewrite save_products_to_csv_spec.
  destruct (can_open path w); eexists _, _; split; reflexivity.
Qed.

(** X18: a run that has got its session comes to an end having sent it
    to the addresses of the jobs in their order, each once: to those up
    to and with the job at position [i], and no further, when that is
    the first whose scraping raises, and to all six when the six
    scrapings return; and a run that ends is one of the two. *)
Theorem pages_visited_in_order (fuel : nat) (w : world D) (d : D) :
  respond NewChrome (session w) = (None, d) ->
  (forall i e,
      scraping_raises_at fuel URLS i e (answered NewChrome None d w) ->
      exists e' w',
        get_all_products fuel w = Some (Raise e', w') /\
        gets (events w') = gets (events w) ++ firstn (S i) URLS) /\
  (forall lists w6,
      scraping_returns fuel URLS (answered NewChrome None d w) lists w6 ->
      exists r w',
        get_all_products fuel w = Some (r, w') /\
        gets (events w') = gets (events w) ++ URLS) /\
  (forall r w',
      get_all_products fuel w = Some (r, w') ->
      (exists i e,
          scraping_raises_at fuel URLS i e (answered NewChrome None d w)) \/
      (exists lists w6,
          scraping_returns fuel URLS (answered NewChrome None d w) lists w6)).
Proof.
  intros Hc. unfold get_all_products.
  match goal with
  | |- context [try_finally ?b (do_call Quit)] => set (body := b)
  end.
  unfold bind at 1 2 3. rewrite (do_call_returns _ d w Hc).
  assert (gets (events (answered NewChrome None d w)) = gets (events w))
    as Hw0 by (apply gets_answered; discriminate).
  set (w0 := answered NewChrome None d w) in *.
  assert (forall rb wb (visited : list pystr),
             body w0 = Some (rb, wb) ->
             gets (events wb) = gets (events w0) ++ visited ->
             exists r w',
               try_finally body (do_call Quit) w0 = Some (r, w') /\
               gets (events w') = gets (events w) ++ visited /\
               (forall e, rb = Raise e -> exists e', r = Raise e'))
    as Hout.
  { intros rb wb visited Hb Hg. unfold try_finally. rewrite Hb.
    destruct (do_call_total Quit wb) as (x & d' & _ & ->).
    exists (match x with None => rb | Some e => Raise e end).
    exists (answered Quit x d' wb).
    split; [now destruct x|].
    rewrite gets_answered by discriminate. rewrite Hg, Hw0.
    split; [reflexivity|].
    intros e ->. destruct x; eauto. }
  split; [|split].
  - intros i e Hs.
    assert (exists wb,
               body w0 = Some (Raise e, wb) /\
               gets (events wb) = gets (events w0) ++ firstn (S i) URLS)
      as (wb & Hb & Hg).
    { subst body. unfold URLS in *.
      destruct i as [|[|[|[|[|[|i]]]]]]; cbn [scraping_raises_at] in Hs;
        repeat match type of Hs with
          | exists _, _ => destruct Hs as [? Hs]
          | _ /\ _ => let Hx := fresh "Hx" in destruct Hs as [Hx Hs]
          end;
        try contradiction;
        unfold bind;
        repeat match goal with
          | Hx : scrape_products ?f ?u ?v = Some _
            |- context [scrape_products ?f ?u ?v] =>
              rewrite Hx; cbv beta iota;
              apply scrape_products_gets in Hx
          end;
        eexists; (split; [reflexivity|]);
        repeat match goal with
          | Hx : gets (events _) = _ |- _ => rewrite Hx; clear Hx
          end;
        cbn [firstn]; rewrite <- ?app_assoc; reflexivity. }
    destruct (Hout _ _ _ Hb Hg) as (r & w' & Hrun & Hgets & Hr).
    destruct (Hr e eq_refl) as (e' & ->).
    exists e', w'. split; assumption.
  - intros lists w6 Hs.
    assert (exists rb wb,
               body w0 = Some (rb, wb) /\
               gets (events wb) = gets (events w0) ++ URLS)
      as (rb & wb & Hb & Hg).
    { subst body. unfold URLS in *.
      destruct lists as [|ps1 [|ps2 [|ps3 [|ps4 [|ps5 [|ps6 [|? ?]]]]]]];
        cbn [scraping_returns] in Hs;
        repeat match type of Hs with
          | exists _, _ => destruct Hs as [? Hs]
          | _ /\ _ => let Hx := fresh "Hx" in destruct Hs as [Hx Hs]
          end;
        try contradiction.
      subst w6. unfold bind.
      repeat match goal with
        | Hx : scrape_products ?f ?u ?v = Some _
          |- context [scrape_products ?f ?u ?v] =>
            rewrite Hx; cbv beta iota;
            apply scrape_products_gets in Hx
        end.
      repeat match goal with
        | |- context [save_products_to_csv ?ps ?p ?v] =>
            let r := fresh "r" in
            let v' := fresh "v" in
            let Hv := fresh "Hv" in
            destruct (save_products_to_csv_ends ps p v)
              as (r & v' & -> & Hv);
            destruct r as [[]|?]; cbv beta iota
        end;
        eexists _, _; (split; [reflexivity|]);
        repeat match goal with
          | Hv : events _ = events _ |- _ => rewrite Hv; clear Hv
          end;
        repeat match goal with
          | Hx : gets (events _) = _ |- _ => rewrite Hx; clear Hx
          end;
        rewrite <- ?app_assoc; reflexivity. }
    destruct (Hout _ _ _ Hb Hg) as (r & w' & Hrun & Hgets & _).
    exists r, w'. split; assumption.
  - intros r w' Hrun.
    destruct (try_finally_quit _ _ _ _ Hrun) as (rb & wb & _ & _ & Hb & _).
    subst body. unfold bind in Hb. unfold URLS.
    destruct (scrape_products fuel HOME_URL w0)
      as [[[ps1|e1] w1]|] eqn:S1; [| |discriminate].
    2: { left. exists 0%nat, e1. cbn [scraping_raises_at]. eauto. }
    destruct (scrape_products fuel COMPUTERS_URL w1)
      as [[[ps2|e2] w2]|] eqn:S2; [| |discriminate].
    2: { left. exists 1%nat, e2. cbn [scraping_raises_at]. eauto 10. }
    destruct (scrape_products fuel LAPTOPS_URL w2)
      as [[[ps3|e3] w3]|] eqn:S3; [| |discriminate].
    2: { left. exists 2%nat, e3. cbn [scraping_raises_at]. eauto 10. }
    destruct (scrape_products fuel TABLETS_URL w3)
      as [[[ps4|e4] w4]|] eqn:S4; [| |discriminate].
    2: { left. exists 3%nat, e4. cbn [scraping_raises_at]. eauto 15. }
    destruct (scrape_products fuel PHONES_URL w4)
      as [[[ps5|e5] w5]|] eqn:S5; [| |discriminate].
    2: { left. exists 4%nat, e5. cbn [scraping_raises_at]. eauto 20. }
    destruct (scrape_products fuel TOUCH_URL w5)
      as [[[ps6|e6] w6]|] eqn:S6; [| |discriminate].
    2: { left. exists 5%nat, e6. cbn [scraping_raises_at]. eauto 25. }
    right. exists [ps1; ps2; ps3; ps4; ps5; ps6], w6.
    cbn [scraping_returns]. eauto 25.
Qed.


(** X20: when the six scrapings return and the destination of the job at
    position [i] is the first that cannot be opened, the run raises
    [OSError], or what quitting the session raises; the destinations of
    the jobs before that one are written, each with the rows of its own
    category, and nothing else is touched: from that job on no
    destination is written. *)
Theorem refused_destination_stops_saving (fuel : nat) (w : world D) (d : D)
    (lists : list (list Product)) (w6 : world D) (i : nat)
    (job : pystr * pystr) :
  respond NewChrome (session w) = (None, d) ->
  scraping_returns fuel URLS (answered NewChrome None d w) lists w6 ->
  Forall (fun job => can_open (snd job) w = true) (firstn i JOBS) ->
  JOBS !! i = Some job ->
  can_open (snd job) w = false ->
  exists e w',
    get_all_products fuel w = Some (Raise e, w') /\
    Forall2 (fun job products =>
               files w' !! snd job = Some (written products (snd job) w))
            (firstn i JOBS) (firstn i lists) /\
    (forall other,
        ~ In other (List.map snd (firstn i JOBS)) ->
        files w' !! other = files w !! other) /\
    (e = OSError \/ exists evs, events w' = evs ++ [Called Quit (Some e)]).
Proof.
  intros Hc Hs Hopen Hjob Hshut. unfold get_all_products.
  unfold bind at 1. rewrite (do_call_returns _ d w Hc).
  set (w0 := answered NewChrome None d w) in *.
  unfold URLS in Hs.
  destruct lists as [|ps1 [|ps2 [|ps3 [|ps4 [|ps5 [|ps6 [|? ?]]]]]]];
    cbn [scraping_returns] in Hs;
    repeat match type of Hs with
      | exists _, _ => destruct Hs as [? Hs]
      | _ /\ _ => let Hx := fresh "Hx" in destruct Hs as [Hx Hs]
      end;
    try contradiction.
  assert (refused w6 = refused w) as Hrefused.
  { subst w6.
    repeat match goal with
      | Hx : scrape_products _ _ _ = Some _ |- _ =>
          apply scrape_products_refused in Hx
      end.
    change (refused w) with (refused w0). congruence. }
  assert (files w6 = files w) as Hfiles.
  { subst w6.
    repeat match goal with
      | Hx : scrape_products _ _ _ = Some _ |- _ =>
          apply scrape_products_files in Hx
      end.
    change (files w) with (files w0). congruence. }
  unfold try_finally, bind.
  repeat match goal with
    | Hx : scrape_products ?f ?u ?v = Some _
      |- context [scrape_products ?f ?u ?v] =>
        rewrite Hx; cbv beta iota; clear Hx
    end.
  subst w6. unfold JOBS in *.
  destruct i as [|[|[|[|[|[|i]]]]]]; simpl in Hjob; try discriminate Hjob;
    injection Hjob as <-; cbn [firstn] in *;
    repeat match goal with
      | Hj : Forall _ (_ :: _) |- _ => inversion_clear Hj
      end;
    cbn [snd] in *;
    repeat (first [rewrite save_products_to_csv_written
                     by (unfold can_open in *; cbn [refused set_file];
                         rewrite Hrefused; assumption)
                  |rewrite save_products_to_csv_refused
                     by (unfold can_open in *; cbn [refused set_file];
                         rewrite Hrefused; assumption)];
            cbv beta iota);
    match goal with
    | |- context [do_call Quit ?v] =>
        destruct (do_call_total Quit v) as (q & d' & _ & ->)
    end;
    rewrite ?written_set_file_ne by paths_differ;
    repeat match goal with
      | |- context [written ?ps ?p ?v] =>
          lazymatch v with
          | w => fail
          | _ => rewrite (written_files ps p v w Hfiles)
          end
      end;
    exists (match q with None => OSError | Some e => e end);
    eexists; (split; [destruct q; reflexivity|]);
    cbn [answered files set_file]; (split; [|split]).
  all: lazymatch goal with
       | |- Forall2 _ _ _ =>
           repeat (constructor;
                   [cbn [snd];
                    rewrite ?lookup_insert_ne by paths_differ;
                    apply lookup_insert_eq|]);
           constructor
       | |- forall other, _ =>
           intros other Hother; cbn [List.map snd In] in Hother;
           rewrite ?lookup_insert_ne by (intros <-; apply Hother; tauto);
           now rewrite Hfiles
       | |- _ \/ _ =>
           destruct q as [e|]; [right | now left]; eexists; reflexivity
       end.
Qed.
End WholeRun_more.

Lemma accept_cookies_contains_selenium_witness :
  exists r w',
    accept_cookies (browsing 0) = Some (r, w') /\
    calls (Click accept_cookies_button) (events w')
    = calls (Click accept_cookies_button) (events (browsing 0)).
Proof.
  destruct (accept_cookies_contains_selenium (browsing 0))
    as (r & w' & Hrun & _ & _ & Hclick).
  exists r, w'. split; [exact Hrun|]. apply Hclick.
  intros E. vm_compute in E. discriminate E.
Defined.

Lemma get_all_products_without_session_witness :
  get_all_products 5 no_browser_world
  = Some (Raise WebDriverException,
          {| session := NoBrowser;
             files := files no_browser_world;
             refused := refused no_browser_world;
             events := events no_browser_world
                       ++ [Called NewChrome (Some WebDriverException)] |}).
Proof.
  exact (get_all_products_without_session 5 no_browser_world
           WebDriverException NoBrowser eq_refl).
Defined.

Lemma pages_visited_in_order_witness :
  exists e' w',
    get_all_products 5 (open_shop bad_catalogue) = Some (Raise e', w') /\
    gets (events w')
    = gets (events (open_shop bad_catalogue)) ++ [HOME_URL; COMPUTERS_URL].
Proof.
  exact (proj1 (pages_visited_in_order 5 (open_shop bad_catalogue)
                  (session (open_shop bad_catalogue)) eq_refl)
               1%nat ValueError bad_catalogue_raises_at_computers).
Defined.

